(** * Product Resource Service: request handlers over a model layer

    Shallow embedding of [service/routes.py] (the Flask request handlers)
    together with a model of the [service.models] layer the handlers call.

    The handlers are embedded generically over an interface [ModelLayer]
    whose operations may raise and may change the store, exactly as the
    Python handlers see the imported [Product] and [Category] classes.
    The interface is then instantiated by [SpecModel], an in-memory store
    written from the specification of the model layer. *)

From Stdlib Require Import ZArith List String Ascii Bool Lia Permutation.
From Stdlib Require Import DecimalString DecimalPos DecimalN DecimalZ.
Import ListNotations.

Local Open Scope string_scope.
Local Open Scope Z_scope.
Local Set Warnings "-register-all".

(** ** JSON documents *)

(** What [request.get_json()] hands to the handlers and what [jsonify]
    receives.  Numbers are the integers; a JSON number with a fraction is a
    binary floating point value in Python and is left out of the embedding. *)
Inductive json : Type :=
| JNull
| JBool (b : bool)
| JNum (z : Z)
| JStr (s : string)
| JArr (items : list json)
| JObj (members : list (string * json)).

(** [key in data] and [data[key]] on a Python dict. *)
Fixpoint dict_get (key : string) (members : list (string * json)) : option json :=
  match members with
  | [] => None
  | (k, v) :: rest => if String.eqb k key then Some v else dict_get key rest
  end.

(** ** Exceptions *)

(** The exception classes the handlers tell apart.  [HTTPException] is what
    [abort(code, description)] raises; [OtherException] stands for every
    other subclass of [Exception]. *)
Inductive exn : Type :=
| HTTPException (code : Z) (description : string)
| AttributeError (msg : string)
| TypeError (msg : string)
| OtherException (msg : string).

(** ** Status codes ([service.common.status]) *)

Definition HTTP_200_OK : Z := 200.
Definition HTTP_201_CREATED : Z := 201.
Definition HTTP_204_NO_CONTENT : Z := 204.
Definition HTTP_400_BAD_REQUEST : Z := 400.
Definition HTTP_404_NOT_FOUND : Z := 404.
Definition HTTP_415_UNSUPPORTED_MEDIA_TYPE : Z := 415.
Definition HTTP_500_INTERNAL_SERVER_ERROR : Z := 500.

(** ** A state and exception monad *)

(** A computation reads and writes the store and either returns or raises.
    The store it leaves behind is kept in both cases: raising does not undo
    earlier writes. *)
Definition M (S A : Type) : Type := S -> (exn + A) * S.

Definition ret {S A} (a : A) : M S A := fun s => (inr a, s).

Definition raise {S A} (e : exn) : M S A := fun s => (inl e, s).

Definition bind {S A B} (m : M S A) (k : A -> M S B) : M S B :=
  fun s =>
    match m s with
    | (inl e, s') => (inl e, s')
    | (inr a, s') => k a s'
    end.

(** [try: body except ...: handler e]; the handler re-raises what it does
    not catch. *)
Definition try_except {S A} (body : M S A) (handler : exn -> M S A) : M S A :=
  fun s =>
    match body s with
    | (inl e, s') => handler e s'
    | (inr a, s') => (inr a, s')
    end.

(** A call that cannot touch the store. *)
Definition lift {S A} (r : exn + A) : M S A := fun s => (r, s).

(** [abort(code, description)] *)
Definition abort {S A} (code : Z) (description : string) : M S A :=
  raise (HTTPException code description).

(** The same sequencing for a call that can only return or raise. *)
Definition bind_exn {A B} (r : exn + A) (k : A -> exn + B) : exn + B :=
  match r with
  | inl e => inl e
  | inr a => k a
  end.

Declare Scope exn_scope.
Delimit Scope exn_scope with exn.
Notation "x <- m ;; k" := (bind_exn m (fun x => k))
  (at level 61, m at next level, right associativity) : exn_scope.

Declare Scope monad_scope.
Delimit Scope monad_scope with monad.
Notation "x <- m ;; k" := (bind m (fun x => k))
  (at level 61, m at next level, right associativity) : monad_scope.
Notation "m ;; k" := (bind m (fun _ => k))
  (at level 61, right associativity) : monad_scope.
Local Open Scope monad_scope.

(** ** Requests and responses *)

(** The parts of Flask's [request] the handlers read.
    - [content_type]: the value of the [Content-Type] header, [None] when
      the request has no such header;
    - [args]: the query string, as the list of its key/value pairs;
    - [body_json]: the body parsed as JSON, [None] when it is not a JSON
      document;
    - [host]: the host the request was sent to, used for external URLs. *)
Record Request : Type := mkRequest {
  content_type : option string;
  args : list (string * string);
  body_json : option json;
  host : string
}.

(** [request.args.get(key)]: the first value of [key], or [None]. *)
Fixpoint args_get (key : string) (a : list (string * string)) : option string :=
  match a with
  | [] => None
  | (k, v) :: rest => if String.eqb k key then Some v else args_get key rest
  end.

(** Python truthiness of the result of [request.args.get]: [None] and the
    empty string are false. *)
Definition truthy (v : option string) : option string :=
  match v with
  | Some (String c s) => Some (String c s)
  | _ => None
  end.

Inductive Body : Type :=
| JsonBody (j : json)          (* jsonify(...) *)
| TextBody (s : string)         (* a plain string *)
| ErrorBody (message : string). (* the description of an aborted request *)

Record Response : Type := mkResponse {
  status_code : Z;
  body : Body;
  location : option string
}.

(** [str(n)] for an integer. *)
Definition str_int (n : Z) : string := NilZero.string_of_int (Z.to_int n).

(** [s.lower()] on the ASCII letters. For a string with characters outside
    ASCII Python applies the Unicode lower-case map; no character outside
    ASCII maps to one of the letters of ["true"], so the comparison made in
    [list_products] is not affected. *)
Definition lower_ascii (c : ascii) : ascii :=
  let n := nat_of_ascii c in
  if andb (Nat.leb 65 n) (Nat.leb n 90) then ascii_of_nat (n + 32) else c.

Fixpoint lower (s : string) : string :=
  match s with
  | EmptyString => EmptyString
  | String c rest => String (lower_ascii c) (lower rest)
  end.

(** ** The model layer as the handlers see it *)

(** The operations of [service.models] used by [routes.py].  Every call may
    raise; the calls that reach the database run in the store monad.
    [Product_new] is [Product()]; [Product_set_id p i] is [p.id = i];
    [Product_deserialize p data] is [p.deserialize(data)] and returns the
    instance it has filled in; [Product_create p] returns the instance with
    the [id] the storage gave it. *)
Class ModelLayer : Type := {
  Store : Type;
  Product : Type;
  Category : Type;
  Product_new : Product;
  Product_id : Product -> option Z;
  Product_set_id : Product -> Z -> Product;
  Product_deserialize : Product -> json -> exn + Product;
  Product_serialize : Product -> json;
  Product_create : Product -> M Store Product;
  Product_update : Product -> M Store unit;
  Product_delete : Product -> M Store unit;
  Product_find : Z -> M Store (option Product);
  Product_all : M Store (list Product);
  Product_find_by_name : string -> M Store (list Product);
  Product_find_by_availability : bool -> M Store (list Product);
  Product_find_by_category : Category -> M Store (list Product);
  Category_find_by_name : string -> M Store (option Category)
}.

(** ** The handlers of [service/routes.py] *)

Section Routes.

Context {ML : ModelLayer}.

(** [request.get_json()] once the content type is [application/json]: the
    parsed body, or a 400 when the body does not parse. *)
Definition get_json (request : Request) : M Store json :=
  match body_json request with
  | Some data => ret data
  | None => abort HTTP_400_BAD_REQUEST "Failed to decode JSON object"
  end.

(** [url_for("get_products", product_id=..., _external=True)] for the rule
    [/products/<int:product_id>]. *)
Definition url_for_get_products (request : Request) (product_id : option Z)
  : M Store string :=
  match product_id with
  | Some i => ret ("http://" ++ host request ++ "/products/" ++ str_int i)
  | None => raise (OtherException "Could not build url for endpoint 'get_products'")
  end.

Definition check_content_type (content_type_ : string) (request : Request)
  : M Store unit :=
  match content_type request with
  | None =>
      abort HTTP_415_UNSUPPORTED_MEDIA_TYPE
            ("Content-Type must be " ++ content_type_)
  | Some v =>
      if String.eqb v content_type_ then ret tt
      else abort HTTP_415_UNSUPPORTED_MEDIA_TYPE
                 ("Content-Type must be " ++ content_type_)
  end.

(** The [try: product.deserialize(data) except AttributeError ... except
    TypeError ...] block shared by create and update. *)
Definition deserialize_or_400 (product : Product) (data : json) : M Store Product :=
  try_except (lift (Product_deserialize product data))
    (fun error =>
       match error with
       | AttributeError msg => abort HTTP_400_BAD_REQUEST msg
       | TypeError msg => abort HTTP_400_BAD_REQUEST msg
       | _ => raise error
       end).

Definition create_products (request : Request) : M Store Response :=
  check_content_type "application/json" request ;;
  data <- get_json request ;;
  let product := Product_new in
  product <- deserialize_or_400 product data ;;
  product <- Product_create product ;;
  let message := Product_serialize product in
  location_url <- url_for_get_products request (Product_id product) ;;
  ret (mkResponse HTTP_201_CREATED (JsonBody message) (Some location_url)).

(** What a branch of [list_products] leaves: the products to serialize, or
    the response of the early [return]. *)
Inductive listing : Type :=
| Products (products : list Product)
| Return (response : Response).

Definition list_products (request : Request) : M Store Response :=
  let name := args_get "name" (args request) in
  let category := args_get "category" (args request) in
  let available := args_get "available" (args request) in
  r <- match truthy name, truthy category, truthy available with
       | Some name, _, _ =>
           products <- Product_find_by_name name ;;
           ret (Products products)
       | None, Some category, _ =>
           try_except
             (category_obj <- Category_find_by_name category ;;
              match category_obj with
              | None =>
                  ret (Return (mkResponse HTTP_200_OK (JsonBody (JArr [])) None))
              | Some category_obj =>
                  products <- Product_find_by_category category_obj ;;
                  ret (Products products)
              end)
             (fun e =>
                abort HTTP_400_BAD_REQUEST ("Invalid category: " ++ category))
       | None, None, Some available =>
           let is_available := String.eqb (lower available) "true" in
           products <- Product_find_by_availability is_available ;;
           ret (Products products)
       | None, None, None =>
           products <- Product_all ;;
           ret (Products products)
       end ;;
  match r with
  | Return response => ret response
  | Products products =>
      let results := map Product_serialize products in
      ret (mkResponse HTTP_200_OK (JsonBody (JArr results)) None)
  end.

Definition not_found_message (product_id : Z) : string :=
  "Product with id '" ++ str_int product_id ++ "' was not found.".

Definition get_products (product_id : Z) : M Store Response :=
  product <- Product_find product_id ;;
  match product with
  | None => abort HTTP_404_NOT_FOUND (not_found_message product_id)
  | Some product =>
      ret (mkResponse HTTP_200_OK (JsonBody (Product_serialize product)) None)
  end.

Definition update_products (product_id : Z) (request : Request)
  : M Store Response :=
  check_content_type "application/json" request ;;
  product <- Product_find product_id ;;
  match product with
  | None => abort HTTP_404_NOT_FOUND (not_found_message product_id)
  | Some product =>
      data <- get_json request ;;
      product <- deserialize_or_400 product data ;;
      let product := Product_set_id product product_id in
      Product_update product ;;
      ret (mkResponse HTTP_200_OK (JsonBody (Product_serialize product)) None)
  end.

Definition delete_products (product_id : Z) : M Store Response :=
  product <- Product_find product_id ;;
  match product with
  | Some product => Product_delete product
  | None => ret tt
  end ;;
  ret (mkResponse HTTP_204_NO_CONTENT (TextBody "") None).

(** ** Flask's dispatch *)

(** What the client receives: the handler's response, the status and
    description of an [abort], or a 500 for any other exception. *)
Definition serve (handler : M Store Response) (db : Store) : Response * Store :=
  match handler db with
  | (inr response, db') => (response, db')
  | (inl (HTTPException code description), db') =>
      (mkResponse code (ErrorBody description) None, db')
  | (inl (AttributeError msg), db')
  | (inl (TypeError msg), db')
  | (inl (OtherException msg), db') =>
      (mkResponse HTTP_500_INTERNAL_SERVER_ERROR (ErrorBody msg) None, db')
  end.

End Routes.

(** ** Following a [Location] *)

Section Client.

Context {ML : ModelLayer}.

(** [strip_prefix p s]: what is left of [s] after the prefix [p]. *)
Fixpoint strip_prefix (p s : string) : option string :=
  match p, s with
  | EmptyString, _ => Some s
  | String a p', String b s' =>
      if Ascii.eqb a b then strip_prefix p' s' else None
  | String _ _, EmptyString => None
  end.

(** The rule [/products/<int:product_id>]: the [int] converter accepts a
    non-empty run of decimal digits. *)
Definition match_product_url (host_ url : string) : option Z :=
  match strip_prefix ("http://" ++ host_ ++ "/products/") url with
  | Some digits =>
      option_map (fun u => Z.of_N (N.of_uint u)) (NilZero.uint_of_string digits)
  | None => None
  end.

(** [client.get(url)] on the URL of a product. *)
Definition http_get (host_ url : string) : M Store Response :=
  match match_product_url host_ url with
  | Some product_id => get_products product_id
  | None => abort HTTP_404_NOT_FOUND "Not Found"
  end.

End Client.

(** * The model layer, from the specification

    The module [service/models.py] is absent; the definitions of this part
    follow the specification of the Model Layer: its data model and the
    operations Serialize, Deserialize, Create, Update, Delete, Find, FindAll
    and the filtered queries. *)

(** ** Decimal prices *)

(** Modelled from the spec: the decimal type of [Product.price], absent
    with [service/models.py].  A value is a sign, an integer part and the
    digits after the point, kept as written: 12.50 and 12.5 are different
    values of this type that denote the same number. *)
Record Dec : Type := mkDec {
  dec_neg : bool;
  dec_int : N;
  dec_frac : Decimal.uint
}.

(** Modelled from the spec: the fractional digits of a price with their
    point, nothing when there are none; part of the decimal string of the
    absent [service/models.py]. *)
Definition str_frac (f : Decimal.uint) : string :=
  match f with
  | Decimal.Nil => ""
  | _ => "." ++ NilEmpty.string_of_uint f
  end.

(** Modelled from the spec: the "exact decimal string representation" of a
    price, absent with [service/models.py]: sign, integer part, and the
    fractional digits after a point when there are any. *)
Definition str_dec (d : Dec) : string :=
  (if dec_neg d then "-" else "")
  ++ NilZero.string_of_uint (N.to_uint (dec_int d))
  ++ str_frac (dec_frac d).

(** [split_dot s]: the text before the first point and, when there is a
    point, the text after it. *)
Fixpoint split_dot (s : string) : string * option string :=
  match s with
  | EmptyString => (EmptyString, None)
  | String c rest =>
      if Ascii.eqb c "."%char then (EmptyString, Some rest)
      else let (i, f) := split_dot rest in (String c i, f)
  end.

(** [split_sign s]: whether [s] starts with a minus sign, and the rest. *)
Definition split_sign (s : string) : bool * string :=
  match s with
  | String "-"%char r => (true, r)
  | _ => (false, s)
  end.

(** Modelled from the spec: parsing a price "into the decimal type", absent
    with [service/models.py]: an optional minus sign, digits, and optionally
    a point and more digits, with a digit on at least one side. *)
Definition dec_of_string (s : string) : option Dec :=
  let (neg, rest) := split_sign s in
  let (i, f) := split_dot rest in
  let f := match f with Some f => f | None => EmptyString end in
  match i, f with
  | EmptyString, EmptyString => None
  | _, _ =>
      match NilEmpty.uint_of_string i, NilEmpty.uint_of_string f with
      | Some ui, Some uf => Some (mkDec neg (N.of_uint ui) uf)
      | _, _ => None
      end
  end.

(** Modelled from the spec: the decimal of an integer price. *)
Definition dec_of_Z (z : Z) : Dec :=
  mkDec (z <? 0) (Z.abs_N z) Decimal.Nil.

(** ** Entities, store and operations *)

Module Model.

(** Modelled from the spec: the [Category] entity of the absent
    [service/models.py]: [id] and [name]. *)
Record Category : Type := mkCategory {
  cat_id : Z;
  cat_name : string
}.

(** Modelled from the spec: the [Product] entity of the absent
    [service/models.py].  [id] is [None] until the product is created;
    [description] is optional. *)
Record Product : Type := mkProduct {
  id : option Z;
  name : string;
  description : option string;
  price : Dec;
  available : bool;
  category_id : Z
}.

(** Modelled from the spec: the persisted state, "two relational tables",
    absent with [service/models.py]; rows are kept in insertion order. *)
Record DB : Type := mkDB {
  products : list Product;
  categories : list Category
}.

(** Modelled from the spec: [Product()] of the absent [service/models.py],
    an unpersisted instance; its fields other than [id] are placeholders
    that [deserialize] fills in. *)
Definition new : Product :=
  mkProduct None "" None (mkDec false 0%N Decimal.Nil) false 0.

(** Modelled from the spec: the assignment [product.id = i] on an instance
    of the absent [service/models.py]. *)
Definition set_id (p : Product) (i : option Z) : Product :=
  mkProduct i (name p) (description p) (price p) (available p) (category_id p).

(** Modelled from the spec: Serialize(Product) of the absent
    [service/models.py]: "a mapping with keys id, name, description, price
    (price rendered as its exact decimal string representation, not a
    float), available, category_id". *)
Definition serialize (p : Product) : json :=
  JObj [ ("id", match id p with Some i => JNum i | None => JNull end);
         ("name", JStr (name p));
         ("description",
           match description p with Some d => JStr d | None => JNull end);
         ("price", JStr (str_dec (price p)));
         ("available", JBool (available p));
         ("category_id", JNum (category_id p)) ].

(** Modelled from the spec: "available is coerced to boolean", absent with
    [service/models.py]: the truth value of the JSON value. *)
Definition coerce_bool (v : json) : bool :=
  match v with
  | JNull => false
  | JBool b => b
  | JNum z => negb (z =? 0)
  | JStr s => negb (String.eqb s "")
  | JArr [] => false
  | JArr (_ :: _) => true
  | JObj [] => false
  | JObj (_ :: _) => true
  end.

(** Modelled from the spec: "category_id is coerced to integer", absent
    with [service/models.py]: an integer, a truth value, or a string holding
    a decimal integer. *)
Definition coerce_int (v : json) : option Z :=
  match v with
  | JNum z => Some z
  | JBool b => Some (if b then 1 else 0)
  | JStr s => option_map Z.of_int (NilZero.int_of_string s)
  | _ => None
  end.

(** Modelled from the spec: "price is parsed into the decimal type", absent
    with [service/models.py]: from a decimal string or an integer. *)
Definition coerce_dec (v : json) : option Dec :=
  match v with
  | JStr s => dec_of_string s
  | JNum z => Some (dec_of_Z z)
  | _ => None
  end.

(** Modelled from the spec: a string field ([name]) of the payload of
    Deserialize, absent with [service/models.py]. *)
Definition coerce_str (v : json) : option string :=
  match v with
  | JStr s => Some s
  | _ => None
  end.

(** Modelled from the spec: the optional string field ([description]) of
    the payload of Deserialize, absent with [service/models.py]: a string,
    or null for no description. *)
Definition coerce_opt_str (v : json) : option (option string) :=
  match v with
  | JStr s => Some (Some s)
  | JNull => Some None
  | _ => None
  end.

(** Modelled from the spec: the "AttributeError-class error identifying
    the missing key" of Deserialize, absent with [service/models.py]. *)
Definition missing (key : string) : exn :=
  AttributeError ("Invalid product: missing " ++ key).

(** Modelled from the spec: the error of Deserialize, absent with
    [service/models.py], for a value that cannot be coerced; it is of
    neither of the two classes the spec names. *)
Definition bad_value (key : string) : exn :=
  OtherException ("Invalid product: bad value for " ++ key).

(** Modelled from the spec: [data[key]] for a required key of Deserialize,
    absent with [service/models.py]. *)
Definition required (key : string) (d : list (string * json)) : exn + json :=
  match dict_get key d with
  | Some v => inr v
  | None => inl (missing key)
  end.

(** Modelled from the spec: the outcome of coercing the value of [key] in
    Deserialize, absent with [service/models.py]. *)
Definition coerced {A : Type} (key : string) (v : option A) : exn + A :=
  match v with
  | Some a => inr a
  | None => inl (bad_value key)
  end.

(** Modelled from the spec: Deserialize(payload) of the absent
    [service/models.py].  "Input must be a mapping type; if not, fails with
    TypeError"; the required keys are read in the order name, description,
    price, available, category_id and, "if any required key is absent",
    the first absent one "fails with an AttributeError-class error
    identifying the missing key", "even if other keys are present and
    valid"; then price, available and category_id are coerced; [id] is set
    when the payload includes it.  The spec gives the two error classes to
    these two causes only: a value that cannot be coerced fails with an
    error of another class. *)
Definition deserialize (self : Product) (data : json) : exn + Product :=
  match data with
  | JObj d =>
      (name_ <- required "name" d ;;
       description_ <- required "description" d ;;
       price_ <- required "price" d ;;
       available_ <- required "available" d ;;
       category_id_ <- required "category_id" d ;;
       name_ <- coerced "name" (coerce_str name_) ;;
       description_ <- coerced "description" (coerce_opt_str description_) ;;
       price_ <- coerced "price" (coerce_dec price_) ;;
       category_id_ <- coerced "category_id" (coerce_int category_id_) ;;
       let id_ :=
         match dict_get "id" d with
         | Some (JNum i) => Some i
         | Some JNull => None
         | _ => id self
         end in
       inr (mkProduct id_ name_ description_ price_
                      (coerce_bool available_) category_id_))%exn
  | _ => inl (TypeError "Invalid product: input is not a mapping")
  end.

(** Modelled from the spec: the primary-key test of the absent
    [service/models.py]: whether row [p] has id [i]. *)
Definition has_id (i : Z) (p : Product) : bool :=
  match id p with
  | Some j => j =? i
  | None => false
  end.

(** Modelled from the spec: the "storage-generated unique id" of Create,
    absent with [service/models.py]: one more than every id in the table,
    and at least 1. *)
Definition fresh_id (rows : list Product) : Z :=
  1 + fold_right (fun p m => match id p with Some i => Z.max i m | None => m end)
                 0 rows.

(** Modelled from the spec: Create(Product) of the absent
    [service/models.py]: "inserts a new row, assigns a storage-generated
    unique id, returns control with id populated on the instance".  The
    category reference is not checked: [test_create_product] creates a
    product whose category was never stored and expects success. *)
Definition create (p : Product) : M DB Product :=
  fun db =>
    let p' := set_id p (Some (fresh_id (products db))) in
    (inr p', mkDB (products db ++ [p']) (categories db)).

(** Modelled from the spec: Find(id) of the absent [service/models.py]:
    "single-row lookup by primary key; returns an explicit absent/none
    marker (not an error) when not found". *)
Definition find (i : Z) : M DB (option Product) :=
  fun db => (inr (List.find (has_id i) (products db)), db).

(** Modelled from the spec: Update(Product) of the absent
    [service/models.py]: "requires id to be already set; persists current
    in-memory field values over the existing row keyed by id"; fails with a
    storage error when there is no such row. *)
Definition update (p : Product) : M DB unit :=
  fun db =>
    match id p with
    | None => (inl (OtherException "Update called with empty ID field"), db)
    | Some i =>
        if existsb (has_id i) (products db) then
          (inr tt,
           mkDB (map (fun q => if has_id i q then p else q) (products db))
                (categories db))
        else (inl (OtherException "Update of a row that does not exist"), db)
    end.

(** Modelled from the spec: Delete(Product) of the absent
    [service/models.py]: "removes the row keyed by id if present; no error
    if absent". *)
Definition delete (p : Product) : M DB unit :=
  fun db =>
    match id p with
    | None => (inr tt, db)
    | Some i =>
        (inr tt,
         mkDB (filter (fun q => negb (has_id i q)) (products db))
              (categories db))
    end.

(** Modelled from the spec: FindAll() of the absent [service/models.py]:
    "returns every row". *)
Definition all : M DB (list Product) :=
  fun db => (inr (products db), db).

(** Modelled from the spec: FindByName(name) of the absent
    [service/models.py]: "exact, case-sensitive string match on name". *)
Definition find_by_name (n : string) : M DB (list Product) :=
  fun db => (inr (filter (fun p => String.eqb (name p) n) (products db)), db).

(** Modelled from the spec: FindByAvailability(flag) of the absent
    [service/models.py]: "exact match on the boolean available field". *)
Definition find_by_availability (flag : bool) : M DB (list Product) :=
  fun db => (inr (filter (fun p => Bool.eqb (available p) flag) (products db)), db).

(** Modelled from the spec: FindByCategory(category) of the absent
    [service/models.py]: "exact match on category_id equal to the given
    Category's id". *)
Definition find_by_category (c : Category) : M DB (list Product) :=
  fun db => (inr (filter (fun p => category_id p =? cat_id c) (products db)), db).

(** Modelled from the spec: Category.FindByName(name) of the absent
    [service/models.py]: "exact match; returns absent marker (not error)
    when no category has that name". *)
Definition category_find_by_name (n : string) : M DB (option Category) :=
  fun db => (inr (List.find (fun c => String.eqb (cat_name c) n) (categories db)), db).

End Model.

(** Modelled from the spec: the Model Layer of the absent
    [service/models.py], behind the interface of the handlers. *)
#[export] Instance SpecModel : ModelLayer := {|
  Store := Model.DB;
  Product := Model.Product;
  Category := Model.Category;
  Product_new := Model.new;
  Product_id := Model.id;
  Product_set_id := fun p i => Model.set_id p (Some i);
  Product_deserialize := Model.deserialize;
  Product_serialize := Model.serialize;
  Product_create := Model.create;
  Product_update := Model.update;
  Product_delete := Model.delete;
  Product_find := Model.find;
  Product_all := Model.all;
  Product_find_by_name := Model.find_by_name;
  Product_find_by_availability := Model.find_by_availability;
  Product_find_by_category := Model.find_by_category;
  Category_find_by_name := Model.category_find_by_name
|}.


(** * Statements about the handlers *)

(** The response of a list request that serializes [products]. *)
Definition listing_response {ML : ModelLayer} (products : list Product) : Response :=
  mkResponse HTTP_200_OK (JsonBody (JArr (map Product_serialize products))) None.

(** The response of an aborted request. *)
Definition aborted (code : Z) (description : string) : Response :=
  mkResponse code (ErrorBody description) None.


(** ** The filter of a list request, in the words of the specification *)

(** The one filter a list request applies. *)
Inductive Filter : Type :=
| ByName (n : string)
| ByCategory (c : string)
| ByAvailability (a : string)
| NoFilter.

(** Stated from the specification, as amended: the query parameters are
    looked at in the order name, category, available, and the first one
    that has a non-empty value is the filter; without one, all products are
    listed. *)
Definition spec_first_filter (request : Request) : Filter :=
  match truthy (args_get "name" (args request)) with
  | Some n => ByName n
  | None =>
      match truthy (args_get "category" (args request)) with
      | Some c => ByCategory c
      | None =>
          match truthy (args_get "available" (args request)) with
          | Some a => ByAvailability a
          | None => NoFilter
          end
      end
  end.

(** Stated from the specification, as written: the first parameter that is
    present in the query string is the filter, whatever its value. *)
Definition stated_first_filter (request : Request) : Filter :=
  match args_get "name" (args request) with
  | Some n => ByName n
  | None =>
      match args_get "category" (args request) with
      | Some c => ByCategory c
      | None =>
          match args_get "available" (args request) with
          | Some a => ByAvailability a
          | None => NoFilter
          end
      end
  end.

(** Whether [c] is the given letter, in lower or in upper case. *)
Definition is_letter (lowercase uppercase c : ascii) : bool :=
  Ascii.eqb c lowercase || Ascii.eqb c uppercase.

(** Stated from the specification, without lower-casing anything: the
    parameter equals "true" when case is ignored, that is, it is one of the
    sixteen spellings true, True, tRue, ..., TRUE. *)
Definition spec_equals_true_ignoring_case (a : string) : bool :=
  match a with
  | String c1 (String c2 (String c3 (String c4 EmptyString))) =>
      is_letter "t" "T" c1 && is_letter "r" "R" c2
      && is_letter "u" "U" c3 && is_letter "e" "E" c4
  | _ => false
  end.

(** Stated from the specification: the rows a single filter selects from
    the store.  A category that does not exist selects nothing; the
    availability filter keeps the rows whose flag equals the outcome of
    comparing the parameter, lower-cased, with "true". *)
Definition spec_filtered (f : Filter) (db : Model.DB) : list Model.Product :=
  match f with
  | ByName n =>
      filter (fun p => String.eqb (Model.name p) n) (Model.products db)
  | ByCategory c =>
      match List.find (fun k => String.eqb (Model.cat_name k) c)
                      (Model.categories db) with
      | Some k =>
          filter (fun p => Model.category_id p =? Model.cat_id k)
                 (Model.products db)
      | None => []
      end
  | ByAvailability a =>
      filter (fun p => Bool.eqb (Model.available p)
                                (String.eqb (lower a) "true"))
             (Model.products db)
  | NoFilter => Model.products db
  end.

(** ** A storage that cannot be reached *)

(** Modelled from the spec: the "storage error (connectivity failure)" of
    the error taxonomy, raised by a call of the absent [service/models.py]
    that cannot reach the storage. *)
Definition storage_error {A : Type} : M unit A :=
  raise (OtherException "could not connect to the storage").

(** Modelled from the spec: the model layer of the absent
    [service/models.py] while the storage backend is down.  Entities live
    in memory as in [Model]; every operation that needs the storage raises
    [storage_error]. *)
Definition Outage : ModelLayer := {|
  Store := unit;
  Product := Model.Product;
  Category := Model.Category;
  Product_new := Model.new;
  Product_id := Model.id;
  Product_set_id := fun p i => Model.set_id p (Some i);
  Product_deserialize := Model.deserialize;
  Product_serialize := Model.serialize;
  Product_create := fun _ => storage_error;
  Product_update := fun _ => storage_error;
  Product_delete := fun _ => storage_error;
  Product_find := fun _ => storage_error;
  Product_all := storage_error;
  Product_find_by_name := fun _ => storage_error;
  Product_find_by_availability := fun _ => storage_error;
  Product_find_by_category := fun _ => storage_error;
  Category_find_by_name := fun _ => storage_error
|}.

(** ** A storage that rejects malformed names *)



(** ** A small catalogue used in the examples *)

Module Example.

Definition tech : Model.Category := Model.mkCategory 1 "Tech".

Definition home : Model.Category := Model.mkCategory 2 "Home".

Definition hat : Model.Product :=
  Model.mkProduct (Some 1) "Hat" (Some "A red hat")
    (mkDec false 12 (Decimal.D5 (Decimal.D0 Decimal.Nil))) true 1.

Definition mug : Model.Product :=
  Model.mkProduct (Some 2) "Mug" None (mkDec false 3 Decimal.Nil) false 2.

Definition db : Model.DB := Model.mkDB [hat; mug] [tech; home].

(** GET /products with the given query string. *)
Definition get (query : list (string * string)) : Request :=
  mkRequest None query None "localhost".

(** The payload of the creation scenario of the specification. *)
Definition fedora : json :=
  JObj [ ("name", JStr "Fedora"); ("description", JStr "A red hat");
         ("price", JStr "12.50"); ("available", JBool true);
         ("category_id", JNum 1) ].

(** The product that payload deserializes to. *)
Definition fedora_product : Model.Product :=
  Model.mkProduct None "Fedora" (Some "A red hat")
    (mkDec false 12 (Decimal.D5 (Decimal.D0 Decimal.Nil))) true 1.

(** A request with a JSON body and the JSON content type. *)
Definition with_json (data : json) : Request :=
  mkRequest (Some "application/json") [] (Some data) "localhost".

End Example.

(** * Further statements *)

(** The lookup and, when it finds a product, the delete of
    [delete_products] both return. *)
Definition delete_calls_return {ML : ModelLayer} (product_id : Z) (db : Store)
  : Prop :=
  (exists db', Product_find product_id db = (inr None, db'))
  \/ (exists p db1 db2,
        Product_find product_id db = (inr (Some p), db1)
        /\ Product_delete p db1 = (inr tt, db2)).

(** Stated for the rows of the model layer: whether the filter [f] selects
    the product [p], given the categories of the store. *)
Definition filter_selects (f : Filter) (db : Model.DB) (p : Model.Product)
  : bool :=
  match f with
  | ByName n => String.eqb (Model.name p) n
  | ByCategory c =>
      match List.find (fun k => String.eqb (Model.cat_name k) c)
                      (Model.categories db) with
      | Some k => Model.category_id p =? Model.cat_id k
      | None => false
      end
  | ByAvailability a =>
      Bool.eqb (Model.available p) (String.eqb (lower a) "true")
  | NoFilter => true
  end.

(** A product table as the storage keeps it: every row has an id, the ids
    are at least 1, and no two rows share one. *)
Definition consistent (db : Model.DB) : Prop :=
  NoDup (map Model.id (Model.products db))
  /\ (forall p, In p (Model.products db) ->
                exists i, Model.id p = Some i /\ 1 <= i).

(** ** The acceptance-test step of [features/steps/load.py] *)

Section Callers.

Context {ML : ModelLayer}.

(** What a client of the service receives from a call: the response Flask
    makes of the handler's outcome. *)
Definition call (handler : M Store Response) : M Store Response :=
  fun db => let (response, db') := serve handler db in (inr response, db').

(** [requests.get(f"{base_url}/products")], where [base_url] is
    [http://host_]: a list request without a query string. *)
Definition requests_get_products (host_ : string) : M Store Response :=
  call (list_products (mkRequest None [] None host_)).

(** [requests.delete(url)]: the rule [/products/<int:product_id>] with the
    method DELETE, and a 404 for a URL the rule does not match. *)
Definition requests_delete (host_ url : string) : M Store Response :=
  call match match_product_url host_ url with
       | Some product_id => delete_products product_id
       | None => abort HTTP_404_NOT_FOUND "Not Found"
       end.

(** [assert(condition)] *)
Definition assert_ (condition : bool) : M Store unit :=
  if condition then ret tt else raise (OtherException "AssertionError").

(** [context.resp.json()], as the sequence the [for] loop goes through: the
    items of a JSON array.  The step reaches this call with the response of
    [list_products] only, whose 200 always carries an array; any other
    body raises. *)
Definition resp_json (response : Response) : M Store (list json) :=
  match body response with
  | JsonBody (JArr items) => ret items
  | _ => raise (OtherException "the response is not a list")
  end.

(** [f"{rest_endpoint}/{product['id']}"]: the key must be there; a number
    prints in decimal, null prints as None, a truth value as True or False
    and a string as itself.  A list or a mapping prints with a leading
    bracket: the rule cannot match such a URL, the DELETE is answered 404
    and the assertion that follows fails; that outcome is given at once. *)
Definition product_url (host_ : string) (product : json) : M Store string :=
  match product with
  | JObj members =>
      match dict_get "id" members with
      | Some v =>
          let rest_endpoint := "http://" ++ host_ ++ "/products" in
          match v with
          | JNum i => ret (rest_endpoint ++ "/" ++ str_int i)
          | JNull => ret (rest_endpoint ++ "/" ++ "None")
          | JBool true => ret (rest_endpoint ++ "/" ++ "True")
          | JBool false => ret (rest_endpoint ++ "/" ++ "False")
          | JStr s => ret (rest_endpoint ++ "/" ++ s)
          | JArr _ | JObj _ => raise (OtherException "AssertionError")
          end
      | None => raise (OtherException "KeyError: 'id'")
      end
  | _ => raise (OtherException "TypeError: not subscriptable by 'id'")
  end.

(** [for x in items: body(x)] *)
Fixpoint for_each {A : Type} (items : list A) (body_ : A -> M Store unit)
  : M Store unit :=
  match items with
  | [] => ret tt
  | x :: rest => body_ x ;; for_each rest body_
  end.

(** The body of the first loop of [step_impl]: delete the listed product
    and assert that the answer is a 204. *)
Definition delete_listed (host_ : string) (product : json) : M Store unit :=
  url <- product_url host_ product ;;
  resp <- requests_delete host_ url ;;
  assert_ (status_code resp =? HTTP_204_NO_CONTENT).

(** The first part of [step_impl] (the step "the following products"):
    list the products and delete each of them, asserting the status of
    every response.  The second part builds its payloads with [float] and
    is not embedded. *)
Definition step_impl_delete_all (host_ : string) : M Store unit :=
  resp <- requests_get_products host_ ;;
  assert_ (status_code resp =? HTTP_200_OK) ;;
  products <- resp_json resp ;;
  for_each products (delete_listed host_).

End Callers.

(** * Properties of the handlers, for any model layer *)

Section Handlers.

Context {ML : ModelLayer}.

(** Running a handler up to its first call that depends on the request or
    the store. *)
Ltac run_handler :=
  unfold serve, create_products, update_products, get_products,
         delete_products, list_products, bind, try_except, get_json.

(** ** The content-type gate *)

Lemma check_content_type_accept (ct : string) (request : Request) (db : Store) :
  content_type request = Some ct ->
  check_content_type ct request db = (inr tt, db).
Proof.
  intros H. unfold check_content_type. rewrite H.
  now rewrite String.eqb_refl.
Qed.

Lemma check_content_type_reject (ct : string) (request : Request) (db : Store) :
  content_type request <> Some ct ->
  check_content_type ct request db =
  (inl (HTTPException HTTP_415_UNSUPPORTED_MEDIA_TYPE
                      ("Content-Type must be " ++ ct)), db).
Proof.
  intros H. unfold check_content_type.
  destruct (content_type request) as [v|]; [|reflexivity].
  destruct (String.eqb_spec v ct) as [->|]; [now elim H | reflexivity].
Qed.

(** C3: on POST /products and PUT /products/{id}, a request without a
    Content-Type header, or with one whose value is not application/json,
    is answered 415 with the same response in both cases, whatever its body
    and whatever the store holds, and the store is left as it was; with the
    header equal to application/json the gate lets the request through. *)
Theorem content_type_gate (request : Request) (product_id : Z) (db : Store) :
  (content_type request <> Some "application/json" ->
     serve (create_products request) db =
       (aborted 415 "Content-Type must be application/json", db)
     /\ serve (update_products product_id request) db =
       (aborted 415 "Content-Type must be application/json", db))
  /\ (content_type request = Some "application/json" ->
     check_content_type "application/json" request db = (inr tt, db)).
Proof.
  split.
  - intros H.
    pose proof (check_content_type_reject "application/json" request db H) as E.
    run_handler. rewrite E. split; reflexivity.
  - apply check_content_type_accept.
Qed.

(** ** Lookup before update *)

(** C5: when the lookup of [product_id] finds no product, GET
    /products/{id} is answered 404, and so is PUT /products/{id} for a
    request that passes the content-type gate; the store is the one the
    lookup left: the handlers write nothing, so PUT creates no row. *)
Theorem not_found_is_404 (product_id : Z) (request : Request) (db db' : Store) :
  Product_find product_id db = (inr None, db') ->
  serve (get_products product_id) db =
    (aborted 404 (not_found_message product_id), db')
  /\ (content_type request = Some "application/json" ->
      serve (update_products product_id request) db =
        (aborted 404 (not_found_message product_id), db')).
Proof.
  intros Hfind. split.
  - run_handler. now rewrite Hfind.
  - intros Hct. run_handler.
    rewrite (check_content_type_accept _ _ _ Hct), Hfind. reflexivity.
Qed.

(** ** Validation failures *)

Lemma deserialize_or_400_ok (p p' : Product) (data : json) (db : Store) :
  Product_deserialize p data = inr p' ->
  deserialize_or_400 p data db = (inr p', db).
Proof.
  intros H. unfold deserialize_or_400, try_except, lift. now rewrite H.
Qed.

Lemma deserialize_or_400_bad (p : Product) (data : json) (msg : string) (db : Store) :
  Product_deserialize p data = inl (AttributeError msg)
  \/ Product_deserialize p data = inl (TypeError msg) ->
  deserialize_or_400 p data db =
    (inl (HTTPException HTTP_400_BAD_REQUEST msg), db).
Proof.
  intros [H|H]; unfold deserialize_or_400, try_except, lift; now rewrite H.
Qed.

(** C6: for a request that passes the content-type gate and carries the
    JSON document [data]: when deserializing [data] raises an
    AttributeError (a required field is missing) or a TypeError (the body
    is not a mapping), POST /products, and PUT /products/{id} for an
    existing id, are answered 400 with the message of the error; when
    deserializing succeeds, neither error branch is taken and the handler
    goes on to create, respectively update, the product. *)
Theorem validation_failure_is_400 (request : Request) (data : json)
    (product_id : Z) (db : Store) :
  content_type request = Some "application/json" ->
  body_json request = Some data ->
  (forall msg,
      Product_deserialize Product_new data = inl (AttributeError msg)
      \/ Product_deserialize Product_new data = inl (TypeError msg) ->
      serve (create_products request) db = (aborted 400 msg, db))
  /\ (forall p,
      Product_deserialize Product_new data = inr p ->
      deserialize_or_400 Product_new data db = (inr p, db)
      /\ create_products request db =
         (product <- Product_create p ;;
          location_url <- url_for_get_products request (Product_id product) ;;
          ret (mkResponse 201 (JsonBody (Product_serialize product))
                          (Some location_url))) db)
  /\ (forall existing db',
      Product_find product_id db = (inr (Some existing), db') ->
      (forall msg,
          Product_deserialize existing data = inl (AttributeError msg)
          \/ Product_deserialize existing data = inl (TypeError msg) ->
          serve (update_products product_id request) db
          = (aborted 400 msg, db'))
      /\ (forall p,
          Product_deserialize existing data = inr p ->
          deserialize_or_400 existing data db' = (inr p, db')
          /\ update_products product_id request db =
             (Product_update (Product_set_id p product_id) ;;
              ret (mkResponse 200
                     (JsonBody (Product_serialize (Product_set_id p product_id)))
                     None)) db')).
Proof.
  intros Hct Hbody.
  pose proof (check_content_type_accept _ _ db Hct) as Hgate.
  split; [|split].
  - intros msg H.
    run_handler. rewrite Hgate, Hbody. unfold ret.
    now rewrite (deserialize_or_400_bad _ _ _ _ H).
  - intros p H. split; [now apply deserialize_or_400_ok|].
    run_handler. rewrite Hgate, Hbody. unfold ret.
    now rewrite (deserialize_or_400_ok _ _ _ _ H).
  - intros existing db' Hfind. split.
    + intros msg H.
      run_handler. rewrite Hgate, Hfind, Hbody. unfold ret.
      now rewrite (deserialize_or_400_bad _ _ _ _ H).
    + intros p H. split; [now apply deserialize_or_400_ok|].
      run_handler. rewrite Hgate, Hfind, Hbody. unfold ret.
      now rewrite (deserialize_or_400_ok _ _ _ _ H).
Qed.

(** ** The category filter *)

(** C2, as amended: for a GET /products request whose name parameter is
    absent or empty and whose category parameter is a non-empty string for
    which the category lookup finds nothing, the response is 200 with an
    empty list (so neither 400 nor 404), and the store is the one the
    lookup left. *)
Theorem category_miss_is_empty_200 (request : Request) (c : string)
    (db db' : Store) :
  truthy (args_get "name" (args request)) = None ->
  truthy (args_get "category" (args request)) = Some c ->
  Category_find_by_name c db = (inr None, db') ->
  serve (list_products request) db =
    (mkResponse 200 (JsonBody (JArr [])) None, db').
Proof.
  intros Hname Hcat Hfind.
  run_handler. rewrite Hname, Hcat, Hfind. reflexivity.
Qed.


End Handlers.

(** * Strings of digits *)

Section Digits.

Import Decimal.


Lemma append_assoc (a b c : string) : (a ++ b) ++ c = a ++ (b ++ c).
Proof. induction a as [|x a IH]; simpl; [reflexivity | now rewrite IH]. Qed.

Lemma strip_prefix_app (p s : string) : strip_prefix p (p ++ s) = Some s.
Proof.
  induction p as [|c p IH]; simpl; [reflexivity|].
  now rewrite Ascii.eqb_refl.
Qed.






(** Parsing the digits of a number gives the number back. *)
Lemma uint_of_string_N (n : N) :
  NilEmpty.uint_of_string (NilEmpty.string_of_uint (N.to_uint n)) =
  Some (N.to_uint n).
Proof. apply NilEmpty.usu. Qed.

(** [str(i)] for a non-negative [i] is a run of digits that reads as [i]. *)
Lemma str_int_digits (i : Z) :
  0 <= i ->
  option_map (fun u => Z.of_N (N.of_uint u)) (NilZero.uint_of_string (str_int i))
  = Some i.
Proof.
  intros Hi. unfold str_int.
  destruct i as [|p|p]; [reflexivity | | lia].
  simpl Z.to_int. unfold NilZero.string_of_int.
  rewrite NilZero.usu by apply Unsigned.to_uint_nonnil.
  simpl. f_equal.
  change (Pos.to_uint p) with (N.to_uint (Npos p)).
  now rewrite DecimalN.Unsigned.of_to.
Qed.

(** The rule of [get_products] reads back the id [url_for] wrote. *)
Lemma match_product_url_str_int (h : string) (i : Z) :
  0 <= i ->
  match_product_url h ("http://" ++ h ++ "/products/" ++ str_int i) = Some i.
Proof.
  intros Hi. unfold match_product_url.
  replace ("http://" ++ h ++ "/products/" ++ str_int i)
    with (("http://" ++ h ++ "/products/") ++ str_int i)
    by (now rewrite !append_assoc).
  rewrite strip_prefix_app. now apply str_int_digits.
Qed.



End Digits.

(** * Properties of the service over the model layer of the specification *)

Section Tables.

Variable A : Type.
Variable f : A -> bool.

Lemma find_filter_negb (l : list A) :
  List.find f (filter (fun x => negb (f x)) l) = None.
Proof.
  induction l as [|a l IH]; simpl; [reflexivity|].
  destruct (f a) eqn:E; simpl; [assumption | now rewrite E].
Qed.

Lemma filter_negb_find_none (l : list A) :
  List.find f l = None -> filter (fun x => negb (f x)) l = l.
Proof.
  induction l as [|a l IH]; simpl; [reflexivity|].
  destruct (f a) eqn:E; simpl; [discriminate | intros H; now rewrite IH].
Qed.

Lemma find_app_last (l : list A) (x : A) :
  (forall y, In y l -> f y = false) ->
  f x = true ->
  List.find f (l ++ [x]) = Some x.
Proof.
  intros Hl Hx. induction l as [|a l IH]; simpl.
  - now rewrite Hx.
  - rewrite (Hl a (or_introl eq_refl)). apply IH.
    intros y Hy. apply Hl. now right.
Qed.

End Tables.

Lemma lt_fresh_id (rows : list Model.Product) (p : Model.Product) (i : Z) :
  In p rows -> Model.id p = Some i -> i < Model.fresh_id rows.
Proof.
  unfold Model.fresh_id.
  induction rows as [|q rows IH]; cbn [fold_right In]; [easy|].
  intros [->|Hin] Hid.
  - rewrite Hid. lia.
  - specialize (IH Hin Hid). destruct (Model.id q); lia.
Qed.

Lemma fresh_id_positive (rows : list Model.Product) : 1 <= Model.fresh_id rows.
Proof.
  unfold Model.fresh_id.
  induction rows as [|q rows IH]; cbn [fold_right]; [lia|].
  destruct (Model.id q); lia.
Qed.

(** No row of the table has the id the storage hands out next. *)
Lemma fresh_id_unused (rows : list Model.Product) (p : Model.Product) :
  In p rows -> Model.has_id (Model.fresh_id rows) p = false.
Proof.
  intros Hin. unfold Model.has_id.
  destruct (Model.id p) as [i|] eqn:Hid; [|reflexivity].
  pose proof (lt_fresh_id rows p i Hin Hid). apply Z.eqb_neq. lia.
Qed.

Lemma has_id_true (i : Z) (p : Model.Product) :
  Model.has_id i p = true -> Model.id p = Some i.
Proof.
  unfold Model.has_id. destruct (Model.id p) as [j|]; [|discriminate].
  intros H. apply Z.eqb_eq in H. now subst.
Qed.

(** ** Listing *)

(** On the model layer of the specification a list request is answered 200
    with the rows its one filter selects, and the store is not touched. *)
Lemma list_products_spec (request : Request) (db : Model.DB) :
  serve (list_products request) db =
  (listing_response (spec_filtered (spec_first_filter request) db), db).
Proof.
  unfold serve, list_products, spec_first_filter, bind, try_except.
  destruct (truthy (args_get "name" (args request))) as [n|];
    [reflexivity|].
  destruct (truthy (args_get "category" (args request))) as [c|].
  - cbn. destruct (List.find _ (Model.categories db)); reflexivity.
  - destruct (truthy (args_get "available" (args request))); reflexivity.
Qed.

(** C1, as amended: GET /products looks at the query parameters in the
    order name, category, available and applies exactly one filter, the
    first whose value is a non-empty string (a parameter given with an
    empty value counts as not given), listing all products when there is
    none; the response is the whole selection of that one filter, whatever
    the parameters after it hold, so filters are never intersected. *)
Theorem filter_precedence (request : Request) (db : Model.DB) :
  serve (list_products request) db =
  (listing_response (spec_filtered (spec_first_filter request) db), db).
Proof. apply list_products_spec. Qed.

(** Lower-casing a character gives a letter of "true" exactly for that
    letter in either case. *)
Lemma lower_ascii_letter (c : ascii) :
  Ascii.eqb (lower_ascii c) "t" = is_letter "t" "T" c
  /\ Ascii.eqb (lower_ascii c) "r" = is_letter "r" "R" c
  /\ Ascii.eqb (lower_ascii c) "u" = is_letter "u" "U" c
  /\ Ascii.eqb (lower_ascii c) "e" = is_letter "e" "E" c.
Proof.
  destruct c as [[|] [|] [|] [|] [|] [|] [|] [|]];
    vm_compute; repeat split.
Qed.

(** The test [available.lower() == "true"] of the handler is the comparison
    with "true" that ignores case. *)
Lemma lower_eqb_true (a : string) :
  String.eqb (lower a) "true" = spec_equals_true_ignoring_case a.
Proof.
  destruct a as [|c1 [|c2 [|c3 [|c4 [|c5 rest]]]]];
    cbn [lower String.eqb spec_equals_true_ignoring_case];
    try (destruct (lower_ascii_letter c1) as (T1 & _ & _ & _); rewrite T1);
    try (destruct (lower_ascii_letter c2) as (_ & R2 & _ & _); rewrite ?R2);
    try (destruct (lower_ascii_letter c3) as (_ & _ & U3 & _); rewrite ?U3);
    try (destruct (lower_ascii_letter c4) as (_ & _ & _ & E4); rewrite ?E4);
    repeat match goal with
      | |- context [is_letter ?x ?y ?c] => destruct (is_letter x y c)
      end;
    reflexivity.
Qed.

(** C10: for a GET /products request without a name or category filter
    whose available parameter is the non-empty string [a], the response is
    200 with the products whose available flag equals the outcome of
    comparing [a] with "true", ignoring case: for each of the spellings
    true, True, ..., TRUE these are exactly the available products, and for
    any other non-empty value ("garbage", "1", "yes") exactly the products
    that are not available; the store is not touched. *)
Theorem available_filter (request : Request) (a : string) (db : Model.DB) :
  truthy (args_get "name" (args request)) = None ->
  truthy (args_get "category" (args request)) = None ->
  truthy (args_get "available" (args request)) = Some a ->
  serve (list_products request) db =
    (listing_response
       (filter (fun p => Bool.eqb (Model.available p)
                                  (spec_equals_true_ignoring_case a))
               (Model.products db)), db)
  /\ (spec_equals_true_ignoring_case a = true ->
      serve (list_products request) db =
        (listing_response (filter Model.available (Model.products db)), db))
  /\ (spec_equals_true_ignoring_case a = false ->
      serve (list_products request) db =
        (listing_response
           (filter (fun p => negb (Model.available p)) (Model.products db)),
         db)).
Proof.
  intros Hn Hc Ha.
  assert (E : serve (list_products request) db =
              (listing_response
                 (filter (fun p => Bool.eqb (Model.available p)
                                            (spec_equals_true_ignoring_case a))
                         (Model.products db)), db)).
  { rewrite list_products_spec. unfold spec_first_filter.
    rewrite Hn, Hc, Ha. cbn [spec_filtered]. now rewrite lower_eqb_true. }
  split; [exact E|]. split; intros H; rewrite E, H.
  - do 2 f_equal. apply filter_ext. intros p. now destruct (Model.available p).
  - reflexivity.
Qed.


(** ** Deleting *)

Lemma delete_products_spec (product_id : Z) (db : Model.DB) :
  serve (delete_products product_id) db =
  (mkResponse 204 (TextBody "") None,
   Model.mkDB (filter (fun q => negb (Model.has_id product_id q))
                      (Model.products db))
              (Model.categories db)).
Proof.
  unfold serve, delete_products, bind. cbn.
  destruct (List.find (Model.has_id product_id) (Model.products db))
    as [p|] eqn:E; cbn.
  - apply find_some in E. destruct E as [_ E].
    unfold Model.delete. now rewrite (has_id_true _ _ E).
  - rewrite (filter_negb_find_none _ _ _ E). now destruct db.
Qed.

(** C4: DELETE /products/{id} is answered 204 with an empty body for every
    id and every store, whether or not a product has that id; afterwards no
    row has the id (the lookup finds nothing and GET is answered 404), and
    deleting the same id again is answered 204 as well and leaves the store
    as the first delete left it. *)
Theorem delete_is_idempotent (product_id : Z) (db : Model.DB) :
  let after := snd (serve (delete_products product_id) db) in
  fst (serve (delete_products product_id) db) = mkResponse 204 (TextBody "") None
  /\ Model.find product_id after = (inr None, after)
  /\ serve (get_products product_id) after =
       (aborted 404 (not_found_message product_id), after)
  /\ serve (delete_products product_id) after =
       (mkResponse 204 (TextBody "") None, after).
Proof.
  rewrite delete_products_spec. cbn [fst snd].
  set (after := Model.mkDB _ _).
  assert (Hfind : Model.find product_id after = (inr None, after)).
  { unfold Model.find, after. cbn [Model.products].
    now rewrite find_filter_negb. }
  repeat split.
  - exact Hfind.
  - unfold serve, get_products, bind.
    change (@Product_find SpecModel product_id after)
      with (Model.find product_id after).
    now rewrite Hfind.
  - rewrite delete_products_spec.
    unfold after. cbn [Model.products Model.categories].
    now rewrite filter_negb_find_none by apply find_filter_negb.
Qed.

(** ** Creating *)

Lemma create_products_spec (request : Request) (data : json)
    (p : Model.Product) (db : Model.DB) :
  content_type request = Some "application/json" ->
  body_json request = Some data ->
  Model.deserialize Model.new data = inr p ->
  serve (create_products request) db =
  (mkResponse 201
     (JsonBody (Model.serialize
                  (Model.set_id p (Some (Model.fresh_id (Model.products db))))))
     (Some ("http://" ++ host request ++ "/products/"
            ++ str_int (Model.fresh_id (Model.products db)))),
   Model.mkDB (Model.products db
               ++ [Model.set_id p (Some (Model.fresh_id (Model.products db)))])
              (Model.categories db)).
Proof.
  intros Hct Hbody Hdes.
  unfold serve, create_products, bind, get_json.
  rewrite (check_content_type_accept _ _ _ Hct), Hbody. unfold ret.
  rewrite (deserialize_or_400_ok (ML := SpecModel) _ _ _ _ Hdes).
  reflexivity.
Qed.

(** C7: a POST /products request that passes the content-type gate and
    whose body deserializes is answered 201; the body of the response is
    the serialized product with the id the storage assigned, an id no
    earlier row has; the Location header is the URL of GET /products/{id}
    for that id, and a GET of that URL is answered 200 with the same
    payload. *)
Theorem create_then_get (request : Request) (data : json)
    (p : Model.Product) (db : Model.DB) :
  content_type request = Some "application/json" ->
  body_json request = Some data ->
  Model.deserialize Model.new data = inr p ->
  let i := Model.fresh_id (Model.products db) in
  let created := Model.set_id p (Some i) in
  let url := "http://" ++ host request ++ "/products/" ++ str_int i in
  let db' := Model.mkDB (Model.products db ++ [created]) (Model.categories db) in
  serve (create_products request) db =
    (mkResponse 201 (JsonBody (Model.serialize created)) (Some url), db')
  /\ Model.id created = Some i
  /\ (forall q, In q (Model.products db) -> Model.id q <> Some i)
  /\ serve (http_get (host request) url) db' =
    (mkResponse 200 (JsonBody (Model.serialize created)) None, db').
Proof.
  intros Hct Hbody Hdes i created url db'.
  repeat split.
  - now apply (create_products_spec request data).
  - intros q Hq Hid.
    pose proof (lt_fresh_id _ _ _ Hq Hid). fold i in H. lia.
  - unfold http_get, url.
    rewrite match_product_url_str_int
      by (pose proof (fresh_id_positive (Model.products db)); unfold i; lia).
    unfold serve, get_products, bind.
    change (@Product_find SpecModel i db') with (Model.find i db').
    unfold Model.find, db'. cbn [Model.products].
    rewrite find_app_last.
    + reflexivity.
    + intros y Hy. now apply fresh_id_unused.
    + unfold Model.has_id, created. cbn [Model.id Model.set_id].
      apply Z.eqb_refl.
Qed.

(** ** Round trip *)


(** What a payload that deserializes holds: a mapping with the five
    required keys, whose values coerce to the fields of the product. *)
Lemma deserialize_inv (self p : Model.Product) (data : json) :
  Model.deserialize self data = inr p ->
  exists d vd vp va vc,
    data = JObj d
    /\ dict_get "name" d = Some (JStr (Model.name p))
    /\ dict_get "description" d = Some vd
    /\ Model.coerce_opt_str vd = Some (Model.description p)
    /\ dict_get "price" d = Some vp
    /\ Model.coerce_dec vp = Some (Model.price p)
    /\ dict_get "available" d = Some va
    /\ Model.coerce_bool va = Model.available p
    /\ dict_get "category_id" d = Some vc
    /\ Model.coerce_int vc = Some (Model.category_id p).
Proof.
  intros H. destruct data as [| | | | |d]; try discriminate H.
  unfold Model.deserialize, Model.required, Model.coerced, bind_exn in H.
  destruct (dict_get "name" d) as [vn|] eqn:En; [|discriminate].
  destruct (dict_get "description" d) as [vd|] eqn:Ed; [|discriminate].
  destruct (dict_get "price" d) as [vp|] eqn:Ep; [|discriminate].
  destruct (dict_get "available" d) as [va|] eqn:Ea; [|discriminate].
  destruct (dict_get "category_id" d) as [vc|] eqn:Ec; [|discriminate].
  destruct (Model.coerce_str vn) as [n|] eqn:Cn; [|discriminate].
  destruct (Model.coerce_opt_str vd) as [ds|] eqn:Cd; [|discriminate].
  destruct (Model.coerce_dec vp) as [pr|] eqn:Cp; [|discriminate].
  destruct (Model.coerce_int vc) as [c|] eqn:Cc; [|discriminate].
  injection H as <-. cbn.
  destruct vn; try discriminate Cn. injection Cn as ->.
  exists d, vd, vp, va, vc. repeat split; assumption || reflexivity.
Qed.

(** A mapping with a required key missing does not deserialize: the error
    is an AttributeError, whatever the other keys hold. *)
Lemma deserialize_missing_key (self : Model.Product) (d : list (string * json))
    (key : string) :
  In key ["name"; "description"; "price"; "available"; "category_id"] ->
  dict_get key d = None ->
  exists k, Model.deserialize self (JObj d) = inl (Model.missing k).
Proof.
  intros Hkey Hnone.
  unfold Model.deserialize, Model.required, bind_exn.
  destruct (dict_get "name" d) eqn:En; [|eexists; reflexivity].
  destruct (dict_get "description" d) eqn:Ed; [|eexists; reflexivity].
  destruct (dict_get "price" d) eqn:Ep; [|eexists; reflexivity].
  destruct (dict_get "available" d) eqn:Ea; [|eexists; reflexivity].
  destruct (dict_get "category_id" d) eqn:Ec; [|eexists; reflexivity].
  exfalso. cbn [In] in Hkey.
  destruct Hkey as [<-|[<-|[<-|[<-|[<-|[]]]]]]; congruence.
Qed.

(** A body that is not a mapping does not deserialize: the error is a
    TypeError. *)
Lemma deserialize_not_mapping (self : Model.Product) (data : json) :
  (forall d, data <> JObj d) ->
  exists msg, Model.deserialize self data = inl (TypeError msg).
Proof.
  intros H. destruct data; try (eexists; reflexivity).
  now elim (H members).
Qed.


(** * The statements at concrete requests *)

(** C1, as written, fails: GET /products?name=&category=Tech supplies both
    name and category, and the handler applies the category filter, not the
    name filter: it answers with the product of category Tech, where the
    filter of the first parameter present (name, empty) selects nothing. *)
Lemma present_but_empty_name_is_skipped :
  let request := Example.get [("name", ""); ("category", "Tech")] in
  args_get "name" (args request) = Some ""
  /\ args_get "category" (args request) = Some "Tech"
  /\ serve (list_products request) Example.db =
       (listing_response [Example.hat], Example.db)
  /\ spec_filtered (stated_first_filter request) Example.db = []
  /\ serve (list_products request) Example.db <>
       (listing_response
          (spec_filtered (stated_first_filter request) Example.db),
        Example.db).
Proof. repeat split; discriminate. Qed.

(** C2, as written, fails: GET /products?category= has no name parameter
    and a category parameter that names no category, and the response is
    not the empty list: the handler lists all products. *)
Lemma empty_category_lists_everything :
  let request := Example.get [("category", "")] in
  args_get "name" (args request) = None
  /\ args_get "category" (args request) = Some ""
  /\ Model.category_find_by_name "" Example.db = (inr None, Example.db)
  /\ serve (list_products request) Example.db =
       (listing_response [Example.hat; Example.mug], Example.db)
  /\ fst (serve (list_products request) Example.db) <>
       mkResponse 200 (JsonBody (JArr [])) None.
Proof. repeat split; discriminate. Qed.

(** With lookups that always return, as those of the model layer of the
    specification do, every list request is answered 200. *)
Lemma listing_is_200_when_lookups_return (request : Request) (db : Model.DB) :
  status_code (fst (serve (list_products request) db)) = 200.
Proof. now rewrite list_products_spec. Qed.


(** The category miss of C2 at GET /products?category=Nope. *)
Lemma category_miss_is_empty_200_witness :
  serve (list_products (Example.get [("category", "Nope")])) Example.db =
  (mkResponse 200 (JsonBody (JArr [])) None, Example.db).
Proof.
  apply (category_miss_is_empty_200 (ML := SpecModel)
           (Example.get [("category", "Nope")]) "Nope" Example.db Example.db);
    reflexivity.
Defined.

(** The gate of C3 at a POST without a Content-Type header, a PUT with
    Content-Type text/plain, and a request with application/json. *)
Lemma content_type_gate_witness :
  serve (create_products (mkRequest None [] (Some Example.fedora) "localhost"))
        Example.db =
    (aborted 415 "Content-Type must be application/json", Example.db)
  /\ serve (update_products 1
              (mkRequest (Some "text/plain") [] (Some Example.fedora) "localhost"))
           Example.db =
    (aborted 415 "Content-Type must be application/json", Example.db)
  /\ check_content_type "application/json" (Example.with_json Example.fedora)
                        Example.db = (inr tt, Example.db).
Proof.
  split; [|split].
  - apply (content_type_gate (ML := SpecModel)
             (mkRequest None [] (Some Example.fedora) "localhost") 1 Example.db).
    discriminate.
  - apply (content_type_gate (ML := SpecModel)
             (mkRequest (Some "text/plain") [] (Some Example.fedora) "localhost")
             1 Example.db).
    discriminate.
  - apply (content_type_gate (ML := SpecModel)
             (Example.with_json Example.fedora) 1 Example.db).
    reflexivity.
Defined.

(** C5 at id 0, which no product of the catalogue has. *)
Lemma not_found_is_404_witness :
  serve (get_products 0) Example.db =
    (aborted 404 "Product with id '0' was not found.", Example.db)
  /\ serve (update_products 0 (Example.with_json Example.fedora)) Example.db =
    (aborted 404 "Product with id '0' was not found.", Example.db).
Proof.
  destruct (not_found_is_404 (ML := SpecModel) 0
              (Example.with_json Example.fedora) Example.db Example.db
              eq_refl) as [Hget Hput].
  split; [exact Hget | exact (Hput eq_refl)].
Defined.

(** C6 at a payload without [description] and at a body that is a string,
    for POST and for PUT on product 1. *)
Lemma validation_failure_is_400_witness :
  serve (create_products (Example.with_json (JObj [("name", JStr "Test")])))
        Example.db =
    (aborted 400 "Invalid product: missing description", Example.db)
  /\ serve (update_products 1 (Example.with_json (JStr "not a dictionary")))
           Example.db =
    (aborted 400 "Invalid product: input is not a mapping", Example.db).
Proof.
  split.
  - destruct (validation_failure_is_400 (ML := SpecModel)
                (Example.with_json (JObj [("name", JStr "Test")]))
                (JObj [("name", JStr "Test")]) 1
                Example.db eq_refl eq_refl) as [H _].
    apply H. left. reflexivity.
  - destruct (validation_failure_is_400 (ML := SpecModel)
                (Example.with_json (JStr "not a dictionary"))
                (JStr "not a dictionary") 1
                Example.db eq_refl eq_refl) as (_ & _ & H).
    destruct (H Example.hat Example.db eq_refl) as [H400 _].
    apply H400. right. reflexivity.
Defined.

(** C7 at the creation scenario of the specification: the product gets id
    3, its price is serialized as "12.50", and the GET of its Location
    returns the payload of the 201. *)
Lemma create_then_get_witness :
  let created := Model.set_id Example.fedora_product (Some 3) in
  let db' :=
    Model.mkDB [Example.hat; Example.mug; created]
               [Example.tech; Example.home] in
  serve (create_products (Example.with_json Example.fedora)) Example.db =
    (mkResponse 201 (JsonBody (Model.serialize created))
                (Some "http://localhost/products/3"), db')
  /\ Model.serialize created =
     JObj [ ("id", JNum 3); ("name", JStr "Fedora");
            ("description", JStr "A red hat"); ("price", JStr "12.50");
            ("available", JBool true); ("category_id", JNum 1) ]
  /\ serve (http_get "localhost" "http://localhost/products/3") db' =
    (mkResponse 200 (JsonBody (Model.serialize created)) None, db').
Proof.
  destruct (create_then_get (Example.with_json Example.fedora) Example.fedora
              Example.fedora_product Example.db eq_refl eq_refl eq_refl)
    as (Hpost & _ & _ & Hget).
  split; [exact Hpost|].
  split; [reflexivity | exact Hget].
Defined.


(** C10 at GET /products?available=TRUE and ?available=True, which list
    the available products, and at ?available=garbage and ?available=1,
    which list the products that are not available. *)
Lemma available_filter_witness :
  serve (list_products (Example.get [("available", "TRUE")])) Example.db
  = (listing_response [Example.hat], Example.db)
  /\ serve (list_products (Example.get [("available", "True")])) Example.db
  = (listing_response [Example.hat], Example.db)
  /\ serve (list_products (Example.get [("available", "garbage")])) Example.db
  = (listing_response [Example.mug], Example.db)
  /\ serve (list_products (Example.get [("available", "1")])) Example.db
  = (listing_response [Example.mug], Example.db).
Proof.
  split; [|split; [|split]].
  - destruct (available_filter (Example.get [("available", "TRUE")])
                "TRUE" Example.db eq_refl eq_refl eq_refl) as (_ & H & _).
    apply H. reflexivity.
  - destruct (available_filter (Example.get [("available", "True")])
                "True" Example.db eq_refl eq_refl eq_refl) as (_ & H & _).
    apply H. reflexivity.
  - destruct (available_filter (Example.get [("available", "garbage")])
                "garbage" Example.db eq_refl eq_refl eq_refl) as (_ & _ & H).
    apply H. reflexivity.
  - destruct (available_filter (Example.get [("available", "1")])
                "1" Example.db eq_refl eq_refl eq_refl) as (_ & _ & H).
    apply H. reflexivity.
Defined.

(** ** Scenarios of the specification *)

(** The payload of a POST that lacks the Content-Type header is never
    looked at: the body may be anything. *)
Example post_without_content_type :
  fst (serve (create_products (mkRequest None [] None "localhost")) Example.db)
  = aborted 415 "Content-Type must be application/json".
Proof. reflexivity. Qed.

(** After three creations, two of them of available products, GET
    /products?available=True lists the two. *)
Example list_available_True :
  let payload name_ available_ :=
    JObj [ ("name", JStr name_); ("description", JNull);
           ("price", JStr "1.00"); ("available", JBool available_);
           ("category_id", JNum 1) ] in
  let post name_ available_ db :=
    snd (serve (create_products (Example.with_json (payload name_ available_)))
               db) in
  let db := post "c" true (post "b" false (post "a" true (Model.mkDB [] []))) in
  exists x y,
    fst (serve (list_products (Example.get [("available", "True")])) db)
    = listing_response [x; y]
    /\ Model.available x = true /\ Model.available y = true.
Proof. eexists _, _. repeat split. Qed.

(** A product is gone after its DELETE: the GET that follows is a 404. *)
Example get_after_delete :
  let db := snd (serve (delete_products 1) Example.db) in
  fst (serve (get_products 1) Example.db)
    = mkResponse 200 (JsonBody (Model.serialize Example.hat)) None
  /\ fst (serve (get_products 1) db)
    = aborted 404 "Product with id '1' was not found.".
Proof. split; reflexivity. Qed.

(** A price written as a JSON string is kept digit for digit. *)
Example fedora_deserializes :
  Model.deserialize Model.new Example.fedora = inr Example.fedora_product.
Proof. reflexivity. Qed.

(** * More about the handlers, for any model layer *)

Section MoreHandlers.

Context {ML : ModelLayer}.

(** X1: the two [except] clauses around [deserialize] catch AttributeError
    and TypeError only: for a request that passes the content-type gate and
    carries a JSON document, an exception of another class raised by
    deserialize leaves POST /products and PUT /products/{id} (for an
    existing id) as it is, so the request is answered 500 and not 400; the
    product is neither created nor updated. *)
Theorem other_deserialize_error_is_500 (request : Request) (data : json)
    (product_id : Z) (m : string) (db : Store) :
  content_type request = Some "application/json" ->
  body_json request = Some data ->
  (Product_deserialize Product_new data = inl (OtherException m) ->
   create_products request db = (inl (OtherException m), db)
   /\ serve (create_products request) db = (aborted 500 m, db))
  /\ (forall existing db',
      Product_find product_id db = (inr (Some existing), db') ->
      Product_deserialize existing data = inl (OtherException m) ->
      update_products product_id request db = (inl (OtherException m), db')
      /\ serve (update_products product_id request) db = (aborted 500 m, db')).
Proof.
  intros Hct Hbody.
  pose proof (check_content_type_accept _ _ db Hct) as Hgate.
  split.
  - intros H.
    assert (E : create_products request db = (inl (OtherException m), db)).
    { unfold create_products, bind, get_json, deserialize_or_400,
        try_except, lift.
      rewrite Hgate, Hbody. unfold ret. now rewrite H. }
    split; [exact E|]. unfold serve. now rewrite E.
  - intros existing db' Hfind H.
    assert (E : update_products product_id request db
                = (inl (OtherException m), db')).
    { unfold update_products, bind, get_json, deserialize_or_400,
        try_except, lift.
      rewrite Hgate, Hfind, Hbody. unfold ret. now rewrite H. }
    split; [exact E|]. unfold serve. now rewrite E.
Qed.

(** X2: a body that is not a JSON document is answered 400 once the
    content-type gate is passed: POST /products then calls nothing of the
    model layer and leaves the store as it was, and PUT /products/{id} on
    an existing id stops after the lookup, without deserializing or
    updating. *)
Theorem unparsable_body_is_400 (request : Request) (product_id : Z) (db : Store) :
  content_type request = Some "application/json" ->
  body_json request = None ->
  serve (create_products request) db
    = (aborted 400 "Failed to decode JSON object", db)
  /\ (forall existing db',
      Product_find product_id db = (inr (Some existing), db') ->
      serve (update_products product_id request) db
      = (aborted 400 "Failed to decode JSON object", db')).
Proof.
  intros Hct Hbody.
  pose proof (check_content_type_accept _ _ db Hct) as Hgate.
  split.
  - unfold serve, create_products, bind, get_json.
    now rewrite Hgate, Hbody.
  - intros existing db' Hfind.
    unfold serve, update_products, bind, get_json.
    now rewrite Hgate, Hfind, Hbody.
Qed.

(** X3: the outcome of GET /products, be it a response or an exception,
    and the store it leaves depend on the query string only through its
    first parameter with a non-empty value: two requests that agree on it
    are handled alike, whatever their other parameters, headers and
    bodies. *)
Theorem list_products_reads_first_filter_only (r1 r2 : Request) (db : Store) :
  spec_first_filter r1 = spec_first_filter r2 ->
  list_products r1 db = list_products r2 db.
Proof.
  unfold spec_first_filter, list_products.
  destruct (truthy (args_get "name" (args r1))) as [n1|],
           (truthy (args_get "name" (args r2))) as [n2|],
           (truthy (args_get "category" (args r1))) as [c1|],
           (truthy (args_get "category" (args r2))) as [c2|],
           (truthy (args_get "available" (args r1))) as [a1|],
           (truthy (args_get "available" (args r2))) as [a2|];
    intros E; try discriminate E; try (injection E as ->); reflexivity.
Qed.

(** X4: outside the category branch nothing is caught: when the filter of
    a GET /products request is the name, the availability, or none, an
    exception raised by the lookup leaves the handler as it is (a storage
    error is answered 500), where the category branch turns it into a
    400. *)
Theorem lookup_error_is_not_caught (request : Request) (e : exn) (db db' : Store) :
  match spec_first_filter request with
  | ByName n => Product_find_by_name n db = (inl e, db')
  | ByAvailability a =>
      Product_find_by_availability (String.eqb (lower a) "true") db
      = (inl e, db')
  | NoFilter => Product_all db = (inl e, db')
  | ByCategory _ => False
  end ->
  list_products request db = (inl e, db')
  /\ (forall m, e = OtherException m ->
      serve (list_products request) db = (aborted 500 m, db')).
Proof.
  unfold spec_first_filter. intros H.
  assert (E : list_products request db = (inl e, db')).
  { unfold list_products, bind.
    destruct (truthy (args_get "name" (args request))) as [n|];
      [now rewrite H|].
    destruct (truthy (args_get "category" (args request))) as [c|];
      [contradiction|].
    destruct (truthy (args_get "available" (args request))) as [a|];
      now rewrite H. }
  split; [exact E|].
  intros m ->. unfold serve. now rewrite E.
Qed.

(** X5: DELETE /products/{id} is answered 204 with an empty body exactly
    when the lookup returns and, if it found a product, the delete of that
    product returns; when the lookup finds nothing, delete is not called
    and the store is the one the lookup left. *)
Theorem delete_204_iff_calls_return (product_id : Z) (db : Store) :
  (fst (serve (delete_products product_id) db)
   = mkResponse 204 (TextBody "") None
   <-> delete_calls_return product_id db)
  /\ (forall db', Product_find product_id db = (inr None, db') ->
      serve (delete_products product_id) db
      = (mkResponse 204 (TextBody "") None, db')).
Proof.
  unfold delete_calls_return, serve, delete_products, bind.
  destruct (Product_find product_id db) as [[e|[p|]] db1] eqn:Hfind.
  - split; [split|]; [ | | intros db' H; discriminate H].
    + destruct e; discriminate.
    + intros [(db' & H)|(p & d1 & d2 & H & _)]; discriminate H.
  - destruct (Product_delete p db1) as [[e|[]] db2] eqn:Hdel.
    + split; [split|]; [ | | intros db' H; discriminate H].
      * destruct e; discriminate.
      * intros [(db' & H)|(p' & d1 & d2 & H & H')]; [discriminate H|].
        injection H as -> ->. congruence.
    + split; [split|]; [ | | intros db' H; discriminate H].
      * intros _. right. now exists p, db1, db2.
      * reflexivity.
  - split; [split|].
    + intros _. left. now exists db1.
    + reflexivity.
    + intros db' H. now injection H as ->.
Qed.

(** X6: the URL that [url_for] builds for a product id that is not
    negative is matched by the rule of [get_products], which reads the same
    id back: a GET of the Location of a created product is handled by
    [get_products] with that id.  A minus sign is not matched by the rule:
    the URL of a negative id is answered 404. *)
Theorem location_round_trip (request : Request) (i : Z) (db : Store) :
  exists url,
    url_for_get_products request (Some i) db = (inr url, db)
    /\ (0 <= i -> http_get (host request) url = get_products i)
    /\ (i < 0 ->
        serve (http_get (host request) url) db = (aborted 404 "Not Found", db)).
Proof.
  eexists. split; [reflexivity|]. split.
  - intros Hi. unfold http_get.
    now rewrite match_product_url_str_int.
  - intros Hi. unfold http_get, match_product_url.
    replace ("http://" ++ host request ++ "/products/" ++ str_int i)
      with (("http://" ++ host request ++ "/products/") ++ str_int i)
      by (now rewrite !append_assoc).
    rewrite strip_prefix_app.
    destruct i as [|p|p]; [lia | lia |].
    unfold str_int. cbn [Z.to_int NilZero.string_of_int].
    unfold NilZero.uint_of_string. cbn [NilEmpty.uint_of_string].
    destruct (NilEmpty.uint_of_string _); reflexivity.
Qed.

End MoreHandlers.

(** * More about the service over the model layer of the specification *)

Section MoreTables.

Variable A : Type.

Lemma filter_all_true (f : A -> bool) (l : list A) :
  (forall x, In x l -> f x = true) -> filter f l = l.
Proof.
  induction l as [|a l IH]; cbn [filter]; intros H; [reflexivity|].
  rewrite (H a (or_introl eq_refl)). f_equal. apply IH.
  intros x Hx. apply H. now right.
Qed.

Lemma filter_all_false (f : A -> bool) (l : list A) :
  (forall x, In x l -> f x = false) -> filter f l = [].
Proof.
  induction l as [|a l IH]; cbn [filter]; intros H; [reflexivity|].
  rewrite (H a (or_introl eq_refl)). apply IH.
  intros x Hx. apply H. now right.
Qed.

Lemma NoDup_map_filter (B : Type) (g : A -> B) (f : A -> bool) (l : list A) :
  NoDup (map g l) -> NoDup (map g (filter f l)).
Proof.
  induction l as [|a l IH]; cbn [map filter]; intros H; [constructor|].
  inversion H as [|? ? Hnotin Hnodup]; subst.
  destruct (f a); cbn [map]; [|now apply IH].
  constructor; [|now apply IH].
  intros Hin. apply Hnotin.
  apply in_map_iff in Hin. destruct Hin as (x & Hx & Hin).
  apply filter_In in Hin. apply in_map_iff. exists x. tauto.
Qed.

End MoreTables.

Lemma has_id_false (i : Z) (p : Model.Product) :
  Model.has_id i p = false <-> Model.id p <> Some i.
Proof.
  unfold Model.has_id. destruct (Model.id p) as [j|].
  - rewrite Z.eqb_neq. split; congruence.
  - split; [discriminate | reflexivity].
Qed.

Lemma has_id_set_id (i : Z) (p : Model.Product) :
  Model.has_id i (Model.set_id p (Some i)) = true.
Proof. unfold Model.has_id. cbn. apply Z.eqb_refl. Qed.

(** The rows after an update of row [i] with [p']. *)
Lemma find_updated (i : Z) (p' : Model.Product) (rows : list Model.Product) :
  Model.has_id i p' = true ->
  existsb (Model.has_id i) rows = true ->
  List.find (Model.has_id i)
            (map (fun q => if Model.has_id i q then p' else q) rows)
  = Some p'.
Proof.
  intros Hp'. induction rows as [|q rows IH]; cbn [existsb map List.find];
    [discriminate|].
  destruct (Model.has_id i q) eqn:E; cbn [orb].
  - intros _. now rewrite Hp'.
  - intros H. rewrite E. now apply IH.
Qed.

Lemma find_other_updated (i j : Z) (p' : Model.Product)
    (rows : list Model.Product) :
  Model.has_id i p' = true -> j <> i ->
  List.find (Model.has_id j)
            (map (fun q => if Model.has_id i q then p' else q) rows)
  = List.find (Model.has_id j) rows.
Proof.
  intros Hp' Hji.
  assert (Hno : forall q, Model.has_id i q = true -> Model.has_id j q = false).
  { intros q Hq. apply has_id_true in Hq. apply has_id_false. congruence. }
  induction rows as [|q rows IH]; cbn [map List.find]; [reflexivity|].
  destruct (Model.has_id i q) eqn:E.
  - rewrite (Hno p' Hp'), (Hno q E). exact IH.
  - destruct (Model.has_id j q); [reflexivity | exact IH].
Qed.

Lemma find_other_deleted (i j : Z) (rows : list Model.Product) :
  j <> i ->
  List.find (Model.has_id j)
            (filter (fun q => negb (Model.has_id i q)) rows)
  = List.find (Model.has_id j) rows.
Proof.
  intros Hji.
  induction rows as [|q rows IH]; cbn [filter List.find]; [reflexivity|].
  destruct (Model.has_id i q) eqn:E; cbn [negb List.find].
  - apply has_id_true in E.
    assert (Model.has_id j q = false) as -> by (apply has_id_false; congruence).
    exact IH.
  - destruct (Model.has_id j q); [reflexivity | exact IH].
Qed.

Lemma map_id_updated (i : Z) (p' : Model.Product) (rows : list Model.Product) :
  Model.id p' = Some i ->
  map Model.id (map (fun q => if Model.has_id i q then p' else q) rows)
  = map Model.id rows.
Proof.
  intros Hp'. induction rows as [|q rows IH]; cbn [map]; [reflexivity|].
  rewrite IH. f_equal.
  destruct (Model.has_id i q) eqn:E; [|reflexivity].
  apply has_id_true in E. congruence.
Qed.

Lemma spec_filtered_selects (f : Filter) (db : Model.DB) :
  spec_filtered f db = filter (filter_selects f db) (Model.products db).
Proof.
  destruct f; cbn [spec_filtered]; try reflexivity.
  - unfold filter_selects.
    destruct (List.find _ (Model.categories db)); [reflexivity|].
    symmetry. now apply filter_all_false.
  - symmetry. now apply filter_all_true.
Qed.

(** ** Updating *)

Lemma update_products_spec (product_id : Z) (request : Request) (data : json)
    (existing p : Model.Product) (db : Model.DB) :
  content_type request = Some "application/json" ->
  body_json request = Some data ->
  List.find (Model.has_id product_id) (Model.products db) = Some existing ->
  Model.deserialize existing data = inr p ->
  serve (update_products product_id request) db =
  (mkResponse 200
     (JsonBody (Model.serialize (Model.set_id p (Some product_id)))) None,
   Model.mkDB
     (map (fun q => if Model.has_id product_id q
                    then Model.set_id p (Some product_id) else q)
          (Model.products db))
     (Model.categories db)).
Proof.
  intros Hct Hbody Hfind Hdes.
  unfold serve, update_products, bind, get_json.
  rewrite (check_content_type_accept _ _ _ Hct).
  change (@Product_find SpecModel product_id db)
    with (Model.find product_id db).
  unfold Model.find. rewrite Hfind, Hbody. unfold ret.
  rewrite (deserialize_or_400_ok (ML := SpecModel) _ _ _ _ Hdes).
  change (@Product_update SpecModel) with Model.update.
  change (@Product_set_id SpecModel p product_id)
    with (Model.set_id p (Some product_id)).
  unfold Model.update. cbn [Model.id Model.set_id].
  assert (E : existsb (Model.has_id product_id) (Model.products db) = true).
  { apply existsb_exists. exists existing. now apply find_some in Hfind. }
  now rewrite E.
Qed.

(** X7: a PUT /products/{id} that passes the gate, finds the product and
    deserializes the body is answered 200 with the product as sent, under
    the id of the URL whatever id the payload carries; a GET of that id
    then returns the same payload; the table keeps its length, and the
    lookup of every other id gives what it gave before. *)
Theorem update_then_get (product_id : Z) (request : Request) (data : json)
    (existing p : Model.Product) (db : Model.DB) :
  content_type request = Some "application/json" ->
  body_json request = Some data ->
  List.find (Model.has_id product_id) (Model.products db) = Some existing ->
  Model.deserialize existing data = inr p ->
  let updated := Model.set_id p (Some product_id) in
  let db' := snd (serve (update_products product_id request) db) in
  fst (serve (update_products product_id request) db)
    = mkResponse 200 (JsonBody (Model.serialize updated)) None
  /\ serve (get_products product_id) db'
    = (mkResponse 200 (JsonBody (Model.serialize updated)) None, db')
  /\ List.length (Model.products db') = List.length (Model.products db)
  /\ Model.categories db' = Model.categories db
  /\ (forall j, j <> product_id ->
        fst (Model.find j db') = fst (Model.find j db)).
Proof.
  intros Hct Hbody Hfind Hdes updated db'.
  unfold db'. rewrite (update_products_spec _ _ _ _ _ _ Hct Hbody Hfind Hdes).
  cbn [fst snd]. subst updated.
  assert (E : existsb (Model.has_id product_id) (Model.products db) = true).
  { apply existsb_exists. exists existing. now apply find_some in Hfind. }
  repeat split.
  - unfold serve, get_products, bind.
    change (@Product_find SpecModel product_id) with (Model.find product_id).
    unfold Model.find. cbn [Model.products].
    rewrite (find_updated _ _ _ (has_id_set_id product_id p) E). reflexivity.
  - cbn [Model.products]. apply List.length_map.
  - intros j Hj. unfold Model.find. cbn [fst Model.products]. f_equal.
    apply find_other_updated; [apply has_id_set_id | exact Hj].
Qed.

(** ** Creating and deleting *)

(** X8: deleting a product right after its creation gives the store back
    as it was before the POST. *)
Theorem create_then_delete_restores (request : Request) (data : json)
    (p : Model.Product) (db : Model.DB) :
  content_type request = Some "application/json" ->
  body_json request = Some data ->
  Model.deserialize Model.new data = inr p ->
  let i := Model.fresh_id (Model.products db) in
  serve (delete_products i) (snd (serve (create_products request) db))
  = (mkResponse 204 (TextBody "") None, db).
Proof.
  intros Hct Hbody Hdes i.
  rewrite (create_products_spec _ _ _ _ Hct Hbody Hdes). cbn [snd].
  rewrite delete_products_spec. cbn [Model.products Model.categories].
  f_equal. rewrite filter_app. cbn [filter]. fold i.
  rewrite has_id_set_id. cbn [negb]. rewrite app_nil_r.
  rewrite filter_all_true.
  - now destruct db.
  - intros q Hq. unfold i. now rewrite fresh_id_unused.
Qed.

(** X9: after a successful POST, every listing holds, up to the order of
    its entries, what it held before together with the created product
    when the filter of the request selects it: the new product is listed
    once, in exactly the listings it belongs to, and no other entry is
    gained or lost. *)
Theorem created_product_in_listings (request : Request) (data : json)
    (p : Model.Product) (db : Model.DB) (listing_request : Request) :
  content_type request = Some "application/json" ->
  body_json request = Some data ->
  Model.deserialize Model.new data = inr p ->
  let created := Model.set_id p (Some (Model.fresh_id (Model.products db))) in
  let db' := snd (serve (create_products request) db) in
  let f := spec_first_filter listing_request in
  exists listed,
    serve (list_products listing_request) db' = (listing_response listed, db')
    /\ Permutation listed
         ((if filter_selects f db created then [created] else [])
          ++ spec_filtered f db).
Proof.
  intros Hct Hbody Hdes created db' f.
  exists (spec_filtered f db'). split; [apply list_products_spec|].
  unfold db'. rewrite (create_products_spec _ _ _ _ Hct Hbody Hdes).
  cbn [snd]. fold created.
  rewrite !spec_filtered_selects. cbn [Model.products].
  rewrite filter_app. cbn [filter].
  assert (E : forall q,
             filter_selects f
               (Model.mkDB (Model.products db ++ [created])
                           (Model.categories db)) q
             = filter_selects f db q) by (intros q; now destruct f).
  rewrite (filter_ext _ _ E), E. apply Permutation_app_comm.
Qed.

(** X10: DELETE /products/{id} touches no other product: the lookup of any
    other id gives what it gave before, and the categories are as they
    were. *)
Theorem delete_keeps_other_products (product_id j : Z) (db : Model.DB) :
  j <> product_id ->
  let db' := snd (serve (delete_products product_id) db) in
  fst (Model.find j db') = fst (Model.find j db)
  /\ Model.categories db' = Model.categories db
  /\ (forall q, In q (Model.products db') -> In q (Model.products db)).
Proof.
  intros Hj db'. unfold db'. rewrite delete_products_spec. cbn [snd].
  repeat split.
  - unfold Model.find. cbn [fst Model.products]. f_equal.
    now apply find_other_deleted.
  - cbn [Model.products]. intros q Hq. now apply filter_In in Hq.
Qed.

(** ** Malformed payloads *)

(** The missing key that [deserialize] reports does not depend on the
    instance that is filled in. *)
Lemma first_missing_key (d : list (string * json)) (key : string) :
  In key ["name"; "description"; "price"; "available"; "category_id"] ->
  dict_get key d = None ->
  exists k, forall self, Model.deserialize self (JObj d) = inl (Model.missing k).
Proof.
  intros Hkey Hnone.
  unfold Model.deserialize, Model.required, bind_exn.
  destruct (dict_get "name" d) eqn:En; [|eexists; reflexivity].
  destruct (dict_get "description" d) eqn:Ed; [|eexists; reflexivity].
  destruct (dict_get "price" d) eqn:Ep; [|eexists; reflexivity].
  destruct (dict_get "available" d) eqn:Ea; [|eexists; reflexivity].
  destruct (dict_get "category_id" d) eqn:Ec; [|eexists; reflexivity].
  exfalso. cbn [In] in Hkey.
  destruct Hkey as [<-|[<-|[<-|[<-|[<-|[]]]]]]; congruence.
Qed.

(** X11: a JSON body that is not a mapping, or a mapping that lacks one of
    name, description, price, available and category_id whatever else it
    holds, is answered 400 by POST /products and by PUT /products/{id} on
    an existing id, and the store is left as it was. *)
Theorem malformed_payload_is_400 (request : Request) (data : json)
    (db : Model.DB) :
  content_type request = Some "application/json" ->
  body_json request = Some data ->
  (forall d, data <> JObj d)
  \/ (exists d key,
        data = JObj d
        /\ In key ["name"; "description"; "price"; "available"; "category_id"]
        /\ dict_get key d = None) ->
  (status_code (fst (serve (create_products request) db)) = 400
   /\ snd (serve (create_products request) db) = db)
  /\ (forall product_id existing,
        List.find (Model.has_id product_id) (Model.products db) = Some existing ->
        status_code (fst (serve (update_products product_id request) db)) = 400
        /\ snd (serve (update_products product_id request) db) = db).
Proof.
  intros Hct Hbody Hbad.
  assert (Hmsg : exists msg, forall self,
               Model.deserialize self data = inl (AttributeError msg)
               \/ Model.deserialize self data = inl (TypeError msg)).
  { destruct Hbad as [Hnot|(d & key & -> & Hkey & Hnone)].
    - exists "Invalid product: input is not a mapping". intros self. right.
      destruct data; try reflexivity. now elim (Hnot members).
    - destruct (first_missing_key d key Hkey Hnone) as [k Hk].
      eexists. intros self. left. apply Hk. }
  destruct Hmsg as [msg Hmsg].
  pose proof (check_content_type_accept (ML := SpecModel) _ _ db Hct) as Hgate.
  split.
  - unfold serve, create_products, bind, get_json.
    rewrite Hgate, Hbody. unfold ret.
    rewrite (deserialize_or_400_bad (ML := SpecModel) _ _ _ _ (Hmsg Model.new)).
    split; reflexivity.
  - intros product_id existing Hfind.
    unfold serve, update_products, bind, get_json.
    rewrite Hgate.
    change (@Product_find SpecModel product_id db)
      with (Model.find product_id db).
    unfold Model.find. rewrite Hfind, Hbody. unfold ret.
    rewrite (deserialize_or_400_bad (ML := SpecModel) _ _ _ _ (Hmsg existing)).
    split; reflexivity.
Qed.

(** ** An invariant of the store *)

Lemma create_products_store (request : Request) (db : Model.DB) :
  snd (serve (create_products request) db) = db
  \/ exists p,
      snd (serve (create_products request) db)
      = Model.mkDB
          (Model.products db
           ++ [Model.set_id p (Some (Model.fresh_id (Model.products db)))])
          (Model.categories db).
Proof.
  unfold serve, create_products, bind, check_content_type, get_json,
    deserialize_or_400, try_except, lift, abort, raise, ret.
  destruct (content_type request) as [v|]; [|now left].
  destruct (String.eqb v "application/json"); [|now left].
  destruct (body_json request) as [data|]; [|now left].
  change (@Product_deserialize SpecModel) with Model.deserialize.
  change (@Product_new SpecModel) with Model.new.
  destruct (Model.deserialize Model.new data) as [[]|p]; try now left.
  right. exists p. reflexivity.
Qed.

Lemma update_products_store (product_id : Z) (request : Request)
    (db : Model.DB) :
  snd (serve (update_products product_id request) db) = db
  \/ exists p,
      snd (serve (update_products product_id request) db)
      = Model.mkDB
          (map (fun q => if Model.has_id product_id q
                         then Model.set_id p (Some product_id) else q)
               (Model.products db))
          (Model.categories db).
Proof.
  unfold serve, update_products, bind, check_content_type, get_json,
    deserialize_or_400, try_except, lift, abort, raise, ret.
  destruct (content_type request) as [v|]; [|now left].
  destruct (String.eqb v "application/json"); [|now left].
  change (@Product_find SpecModel product_id db)
    with (Model.find product_id db).
  unfold Model.find.
  destruct (List.find (Model.has_id product_id) (Model.products db))
    as [existing|]; [|now left].
  destruct (body_json request) as [data|]; [|now left].
  change (@Product_deserialize SpecModel) with Model.deserialize.
  destruct (Model.deserialize existing data) as [[]|p]; try now left.
  change (@Product_update SpecModel) with Model.update.
  change (@Product_set_id SpecModel p product_id)
    with (Model.set_id p (Some product_id)).
  unfold Model.update. cbn [Model.id Model.set_id].
  destruct (existsb (Model.has_id product_id) (Model.products db));
    [|now left].
  right. exists p. reflexivity.
Qed.

(** X12: the handlers keep the product table consistent: if every row has
    an id of at least 1 and no two rows share an id, the same holds after
    any POST /products, PUT /products/{id} or DELETE /products/{id},
    whatever the request, and the two GET handlers leave the store as it
    is. *)
Theorem handlers_keep_store_consistent (request : Request) (product_id : Z)
    (db : Model.DB) :
  consistent db ->
  consistent (snd (serve (create_products request) db))
  /\ consistent (snd (serve (update_products product_id request) db))
  /\ consistent (snd (serve (delete_products product_id) db))
  /\ snd (serve (get_products product_id) db) = db
  /\ snd (serve (list_products request) db) = db.
Proof.
  intros [Hnodup Hids]. repeat split.
  - destruct (create_products_store request db) as [->|[p ->]];
      [assumption|]. cbn [Model.products]. rewrite map_app. cbn [map].
    cbn [Model.id Model.set_id].
    apply NoDup_app; repeat split.
    + assumption.
    + repeat constructor. intros [].
    + intros o Ho [<-|[]].
      apply in_map_iff in Ho. destruct Ho as (q & Hq & Hin).
      pose proof (lt_fresh_id _ _ _ Hin Hq). lia.
  - destruct (create_products_store request db) as [->|[p ->]];
      [assumption|]. cbn [Model.products]. intros q Hq.
    apply in_app_or in Hq. destruct Hq as [Hq|[<-|[]]]; [now apply Hids|].
    eexists. split; [reflexivity | apply fresh_id_positive].
  - destruct (update_products_store product_id request db) as [->|[p ->]];
      [assumption|]. cbn [Model.products].
    now rewrite map_id_updated.
  - destruct (update_products_store product_id request db) as [->|[p ->]];
      [assumption|]. cbn [Model.products]. intros q Hq.
    apply in_map_iff in Hq. destruct Hq as (q0 & <- & Hin).
    destruct (Model.has_id product_id q0) eqn:E; [|now apply Hids].
    apply has_id_true in E. destruct (Hids q0 Hin) as (i & Hi & Hpos).
    exists product_id. split; [reflexivity|]. congruence.
  - rewrite delete_products_spec. cbn [snd Model.products].
    now apply NoDup_map_filter.
  - rewrite delete_products_spec. cbn [snd Model.products]. intros q Hq.
    apply filter_In in Hq. now apply Hids.
  - unfold serve, get_products, bind.
    change (@Product_find SpecModel product_id db)
      with (Model.find product_id db).
    unfold Model.find. now destruct (List.find _ _).
  - now rewrite list_products_spec.
Qed.

(** ** The acceptance-test step *)

Lemma rest_endpoint_url (h s : string) :
  ("http://" ++ h ++ "/products") ++ "/" ++ s
  = "http://" ++ h ++ "/products/" ++ s.
Proof. rewrite !append_assoc. reflexivity. Qed.

Lemma match_product_url_not_digit (h : string) (c : ascii) (s : string) :
  uint_of_char c (Some Decimal.Nil) = None ->
  match_product_url h ("http://" ++ h ++ "/products/" ++ String c s) = None.
Proof.
  intros Hc. unfold match_product_url.
  replace ("http://" ++ h ++ "/products/" ++ String c s)
    with (("http://" ++ h ++ "/products/") ++ String c s)
    by (now rewrite !append_assoc).
  rewrite strip_prefix_app.
  unfold NilZero.uint_of_string. cbn [NilEmpty.uint_of_string].
  destruct (NilEmpty.uint_of_string s) as [u|]; [|reflexivity].
  unfold uint_of_char in *.
  destruct c as [[|] [|] [|] [|] [|] [|] [|] [|]];
    try discriminate Hc; reflexivity.
Qed.

(** A listed product whose id is not negative is deleted, and the
    assertion holds. *)
Lemma delete_listed_good (h : string) (p : Model.Product) (i : Z)
    (db : Model.DB) :
  Model.id p = Some i -> 0 <= i ->
  delete_listed h (Model.serialize p) db
  = (inr tt,
     Model.mkDB (filter (fun q => negb (Model.has_id i q)) (Model.products db))
                (Model.categories db)).
Proof.
  intros Hid Hi.
  unfold delete_listed, product_url, Model.serialize, bind.
  cbn [dict_get String.eqb Ascii.eqb Bool.eqb]. rewrite Hid. unfold ret.
  rewrite rest_endpoint_url.
  unfold requests_delete, call. rewrite match_product_url_str_int by exact Hi.
  now rewrite delete_products_spec.
Qed.

(** A listed product without an id, or with a negative one, fails the
    assertion: its URL is not one of a product, and nothing is deleted. *)
Lemma delete_listed_bad (h : string) (p : Model.Product) (db : Model.DB) :
  Model.id p = None \/ (exists i, Model.id p = Some i /\ i < 0) ->
  delete_listed h (Model.serialize p) db
  = (inl (OtherException "AssertionError"), db).
Proof.
  intros Hbad.
  unfold delete_listed, product_url, Model.serialize, bind.
  cbn [dict_get String.eqb Ascii.eqb Bool.eqb].
  destruct Hbad as [->|(i & -> & Hi)]; unfold ret; rewrite rest_endpoint_url;
    unfold requests_delete, call.
  - now rewrite match_product_url_not_digit.
  - destruct i as [|n|n]; try lia.
    unfold str_int. cbn [Z.to_int NilZero.string_of_int].
    now rewrite match_product_url_not_digit.
Qed.

Lemma for_each_delete_listed (h : string) (l : list Model.Product) :
  (forall p, In p l -> exists i, Model.id p = Some i /\ 0 <= i) ->
  forall db : Model.DB,
  exists rows,
    for_each (map Model.serialize l) (delete_listed h) db
    = (inr tt, Model.mkDB rows (Model.categories db))
    /\ (forall q, In q rows ->
          In q (Model.products db)
          /\ forall p, In p l -> Model.id q <> Model.id p).
Proof.
  induction l as [|p l IH]; intros Hl db.
  - exists (Model.products db). split; [now destruct db|].
    intros q Hq. split; [assumption | intros p []].
  - destruct (Hl p (or_introl eq_refl)) as (i & Hid & Hi).
    cbn [map for_each]. unfold bind at 1.
    rewrite (delete_listed_good h p i db Hid Hi).
    destruct (IH (fun p' Hp' => Hl p' (or_intror Hp'))
                 (Model.mkDB
                    (filter (fun q => negb (Model.has_id i q))
                            (Model.products db))
                    (Model.categories db))) as (rows & Hrun & Hrows).
    exists rows. split; [exact Hrun|].
    intros q Hq. destruct (Hrows q Hq) as [Hin Hother].
    cbn [Model.products] in Hin. apply filter_In in Hin.
    destruct Hin as [Hin Hneg]. split; [assumption|].
    intros p' [<-|Hp']; [|now apply Hother].
    rewrite Hid. apply has_id_false. now destruct (Model.has_id i q).
Qed.

Lemma for_each_delete_listed_fails (h : string) (l : list Model.Product) :
  (exists p, In p l
             /\ (Model.id p = None \/ exists i, Model.id p = Some i /\ i < 0)) ->
  forall db : Model.DB,
  exists db',
    for_each (map Model.serialize l) (delete_listed h) db
    = (inl (OtherException "AssertionError"), db').
Proof.
  induction l as [|p l IH]; intros (b & Hin & Hbad) db; [destruct Hin|].
  cbn [map for_each]. unfold bind at 1.
  destruct (Model.id p) as [i|] eqn:Hid.
  - destruct (Z_lt_ge_dec i 0) as [Hneg|Hpos].
    + rewrite delete_listed_bad by (right; eauto). eauto.
    + rewrite (delete_listed_good h p i db Hid) by lia.
      apply IH. exists b. split; [|exact Hbad].
      destruct Hin as [<-|Hin]; [|exact Hin].
      destruct Hbad as [Hb|(j & Hb & Hj)]; rewrite Hid in Hb;
        [discriminate | injection Hb as <-; lia].
  - rewrite delete_listed_bad by now left. eauto.
Qed.

(** X13: the first part of the step "the following products" (list, then
    delete every listed product) runs to its end exactly when every product
    of the catalogue has an id that is not negative, and it then leaves no
    product at all and the categories as they were; with a product without
    id or with a negative id, one of its assertions fails. *)
Theorem step_impl_delete_all_empties (h : string) (db : Model.DB) :
  ((forall p, In p (Model.products db) ->
              exists i, Model.id p = Some i /\ 0 <= i) ->
   step_impl_delete_all h db = (inr tt, Model.mkDB [] (Model.categories db)))
  /\ ((exists p, In p (Model.products db)
                 /\ (Model.id p = None
                     \/ exists i, Model.id p = Some i /\ i < 0)) ->
      exists db',
        step_impl_delete_all h db
        = (inl (OtherException "AssertionError"), db')).
Proof.
  assert (Hlist : step_impl_delete_all h db
                  = for_each (map Model.serialize (Model.products db))
                             (delete_listed h) db).
  { unfold step_impl_delete_all, requests_get_products, call, bind.
    rewrite list_products_spec. reflexivity. }
  rewrite Hlist. split.
  - intros Hids.
    destruct (for_each_delete_listed h (Model.products db) Hids db)
      as (rows & Hrun & Hrows).
    rewrite Hrun. f_equal. f_equal.
    destruct rows as [|q rows]; [reflexivity|].
    destruct (Hrows q (or_introl eq_refl)) as [Hin Hother].
    now elim (Hother q Hin).
  - intros Hbad. now apply for_each_delete_listed_fails.
Qed.

(** * The further statements at concrete requests *)

(** X1 at a payload whose price is not a decimal: the model layer of the
    specification raises an error that is neither an AttributeError nor a
    TypeError, and POST /products is answered 500. *)
Lemma other_deserialize_error_is_500_witness :
  let data :=
    JObj [ ("name", JStr "Fedora"); ("description", JNull);
           ("price", JStr "cheap"); ("available", JBool true);
           ("category_id", JNum 1) ] in
  serve (create_products (Example.with_json data)) Example.db
  = (aborted 500 "Invalid product: bad value for price", Example.db)
  /\ serve (update_products 1 (Example.with_json data)) Example.db
  = (aborted 500 "Invalid product: bad value for price", Example.db).
Proof.
  intros data.
  destruct (other_deserialize_error_is_500 (ML := SpecModel)
              (Example.with_json data) data 1
              "Invalid product: bad value for price" Example.db
              eq_refl eq_refl) as [Hpost Hput].
  split.
  - apply Hpost. reflexivity.
  - apply (Hput Example.hat Example.db); reflexivity.
Defined.

(** X2 at a request with the JSON content type and no JSON body. *)
Lemma unparsable_body_is_400_witness :
  let request := mkRequest (Some "application/json") [] None "localhost" in
  serve (create_products request) Example.db
  = (aborted 400 "Failed to decode JSON object", Example.db)
  /\ serve (update_products 1 request) Example.db
  = (aborted 400 "Failed to decode JSON object", Example.db).
Proof.
  intros request.
  destruct (unparsable_body_is_400 (ML := SpecModel) request 1 Example.db
              eq_refl eq_refl) as [Hpost Hput].
  split; [exact Hpost | apply (Hput Example.hat Example.db); reflexivity].
Defined.

(** X3 at GET /products?name=Hat&category=Home&available=false and GET
    /products?name=Hat. *)
Lemma list_products_reads_first_filter_only_witness :
  list_products
    (Example.get [("name", "Hat"); ("category", "Home"); ("available", "false")])
    Example.db
  = list_products (Example.get [("name", "Hat")]) Example.db.
Proof.
  apply (list_products_reads_first_filter_only (ML := SpecModel)).
  reflexivity.
Defined.

(** X4 at GET /products and GET /products?name=Hat with the storage down:
    both are answered 500. *)
Lemma lookup_error_is_not_caught_witness :
  serve (ML := Outage) (list_products (Example.get [])) tt
  = (aborted 500 "could not connect to the storage", tt)
  /\ serve (ML := Outage) (list_products (Example.get [("name", "Hat")])) tt
  = (aborted 500 "could not connect to the storage", tt).
Proof.
  split.
  - apply (lookup_error_is_not_caught (ML := Outage) (Example.get [])
             (OtherException "could not connect to the storage") tt tt);
      reflexivity.
  - apply (lookup_error_is_not_caught (ML := Outage)
             (Example.get [("name", "Hat")])
             (OtherException "could not connect to the storage") tt tt);
      reflexivity.
Defined.

(** X5 at DELETE /products/1: a 204 with the catalogue in place, no 204
    with the storage down. *)
Lemma delete_204_iff_calls_return_witness :
  fst (serve (delete_products 1) Example.db)
  = mkResponse 204 (TextBody "") None
  /\ fst (serve (ML := Outage) (delete_products 1) tt)
  <> mkResponse 204 (TextBody "") None.
Proof.
  split.
  - apply (delete_204_iff_calls_return (ML := SpecModel) 1 Example.db).
    right. exists Example.hat, Example.db. eexists. split; reflexivity.
  - intros H.
    apply (delete_204_iff_calls_return (ML := Outage) 1 tt) in H.
    destruct H as [(db' & H)|(p & db1 & db2 & H & _)]; discriminate H.
Defined.

(** X6 at product 3 on localhost. *)
Lemma location_round_trip_witness :
  http_get (ML := SpecModel) "localhost" "http://localhost/products/3"
  = get_products 3.
Proof.
  destruct (location_round_trip (ML := SpecModel)
              (Example.with_json Example.fedora) 3 Example.db)
    as (url & Hurl & Hget & _).
  injection Hurl as <-. apply Hget. discriminate.
Defined.

(** X7 at PUT /products/1 with the payload of the creation scenario. *)
Lemma update_then_get_witness :
  let updated := Model.set_id Example.fedora_product (Some 1) in
  fst (serve (update_products 1 (Example.with_json Example.fedora)) Example.db)
  = mkResponse 200 (JsonBody (Model.serialize updated)) None
  /\ fst (serve (get_products 1)
            (snd (serve (update_products 1 (Example.with_json Example.fedora))
                        Example.db)))
  = mkResponse 200 (JsonBody (Model.serialize updated)) None
  /\ fst (Model.find 2
            (snd (serve (update_products 1 (Example.with_json Example.fedora))
                        Example.db)))
  = inr (Some Example.mug).
Proof.
  intros updated.
  destruct (update_then_get 1 (Example.with_json Example.fedora) Example.fedora
              Example.hat (Model.set_id Example.fedora_product (Some 1))
              Example.db eq_refl eq_refl eq_refl)
    as (Hput & Hget & _ & _ & Hother).
  - reflexivity.
  - split; [exact Hput|]. split.
    + now rewrite Hget.
    + rewrite Hother by discriminate. reflexivity.
Defined.

(** X8 at the creation scenario: product 3 is created, then deleted. *)
Lemma create_then_delete_restores_witness :
  serve (delete_products 3)
        (snd (serve (create_products (Example.with_json Example.fedora))
                    Example.db))
  = (mkResponse 204 (TextBody "") None, Example.db).
Proof.
  apply (create_then_delete_restores (Example.with_json Example.fedora)
           Example.fedora Example.fedora_product Example.db);
    reflexivity.
Defined.

(** X9 at the creation scenario: the new product is among the two listed
    under available=true and is not listed under category=Home. *)
Lemma created_product_in_listings_witness :
  let created := Model.set_id Example.fedora_product (Some 3) in
  let db' :=
    snd (serve (create_products (Example.with_json Example.fedora)) Example.db) in
  (exists listed,
      serve (list_products (Example.get [("available", "true")])) db'
      = (listing_response listed, db')
      /\ Permutation listed [created; Example.hat])
  /\ (exists listed,
      serve (list_products (Example.get [("category", "Home")])) db'
      = (listing_response listed, db')
      /\ Permutation listed [Example.mug]).
Proof.
  intros created db'. split.
  - exact (created_product_in_listings (Example.with_json Example.fedora)
             Example.fedora Example.fedora_product Example.db
             (Example.get [("available", "true")]) eq_refl eq_refl eq_refl).
  - exact (created_product_in_listings (Example.with_json Example.fedora)
             Example.fedora Example.fedora_product Example.db
             (Example.get [("category", "Home")]) eq_refl eq_refl eq_refl).
Defined.

(** X10 at DELETE /products/1: product 2 is still found. *)
Lemma delete_keeps_other_products_witness :
  fst (Model.find 2 (snd (serve (delete_products 1) Example.db)))
  = inr (Some Example.mug).
Proof.
  destruct (delete_keeps_other_products 1 2 Example.db) as [H _];
    [discriminate|].
  rewrite H. reflexivity.
Defined.

(** X11 at the payload of [test_deserialize_missing_data] and at a body
    that is a string. *)
Lemma malformed_payload_is_400_witness :
  status_code
    (fst (serve (create_products
                   (Example.with_json (JObj [("name", JStr "Test")])))
                Example.db)) = 400
  /\ status_code
       (fst (serve (update_products 1
                      (Example.with_json (JStr "this is not a dictionary")))
                   Example.db)) = 400.
Proof.
  split.
  - apply (malformed_payload_is_400
             (Example.with_json (JObj [("name", JStr "Test")]))
             (JObj [("name", JStr "Test")]) Example.db eq_refl eq_refl).
    right. exists [("name", JStr "Test")], "price".
    split; [reflexivity|]. split; [|reflexivity].
    cbn [In]. tauto.
  - apply (malformed_payload_is_400
             (Example.with_json (JStr "this is not a dictionary"))
             (JStr "this is not a dictionary") Example.db eq_refl eq_refl)
      with (existing := Example.hat); [|reflexivity].
    left. discriminate.
Defined.

Lemma example_db_consistent : consistent Example.db.
Proof.
  split.
  - repeat constructor; cbn; intuition discriminate.
  - intros p [<-|[<-|[]]]; eexists; (split; [reflexivity | lia]).
Qed.

(** X12 at the catalogue of the examples and the creation scenario. *)
Lemma handlers_keep_store_consistent_witness :
  consistent Example.db
  /\ consistent
       (snd (serve (create_products (Example.with_json Example.fedora))
                   Example.db))
  /\ consistent
       (snd (serve (update_products 2 (Example.with_json Example.fedora))
                   Example.db)).
Proof.
  destruct (handlers_keep_store_consistent (Example.with_json Example.fedora)
              2 Example.db example_db_consistent) as (Hc & Hu & _).
  split; [exact example_db_consistent|]. split; assumption.
Defined.

(** X13 at the catalogue of the examples, and at a catalogue with a product
    that was never given an id. *)
Lemma step_impl_delete_all_empties_witness :
  step_impl_delete_all "localhost" Example.db
  = (inr tt, Model.mkDB [] [Example.tech; Example.home])
  /\ exists db',
      step_impl_delete_all "localhost"
        (Model.mkDB [Example.hat; Example.fedora_product] [])
      = (inl (OtherException "AssertionError"), db').
Proof.
  split.
  - apply (step_impl_delete_all_empties "localhost" Example.db).
    intros p [<-|[<-|[]]]; eexists; (split; [reflexivity | lia]).
  - apply (step_impl_delete_all_empties "localhost"
             (Model.mkDB [Example.hat; Example.fedora_product] [])).
    exists Example.fedora_product. split; [cbn; tauto | now left].
Defined.
